(** * NuRadioReco analog-to-digital converter: a shallow embedding

    Source: [NuRadioReco/modules/analogToDigitalConverter.py].

    Python values are rendered as follows.
    - A [float] / numpy [float64] is an element of a type [F] carrying the
      operations the module uses (class [Arith]).  Two instances are given:
      [Q], exact rational arithmetic (the idealisation under which the
      general theorems are proved), and [spec_float] at precision 53 and
      maximal exponent 1024, the IEEE 754 binary64 arithmetic the
      interpreter really performs.
    - A Python [int] is a [Z]; a number that may be either is a [pynum].
    - A numpy array is a [list]; where aliasing matters (section
      [ComparatorHeap]) it is a location in a store of buffers.
    - A dictionary with string keys is a [gmap string _].
    - [raise] is the constructor [Raise] of [result]. *)

From Stdlib Require Import ZArith QArith Qround Qpower String List Lia SpecFloat.
From stdpp Require Import gmap strings list.

Local Open Scope Z_scope.

(** ** Exceptions and results *)

(** The messages of the [ValueError]s the module raises. *)
Inductive error_msg : Type :=
| ChooseFloorOrCeiling
| OutputFormatUnknown
| FieldNotPresent (field : string) (channel_id : Z)
| AdcRateGreaterThanChannel (channel_id : Z)
| NyquistZoneLessThanOne
| LargerSamplingFrequency
| NegativeNumberOfSamples.

Inductive exn : Type :=
| ValueError (msg : error_msg)
| ZeroDivisionError
| TypeError
| KeyError (key : string)
| IndexError
| CollaboratorError.

Inductive result (A : Type) : Type :=
| Ok (a : A)
| Raise (e : exn).
Arguments Ok {A} a.
Arguments Raise {A} e.

Definition rbind {A B} (r : result A) (k : A -> result B) : result B :=
  match r with
  | Ok a => k a
  | Raise e => Raise e
  end.

Declare Scope result_scope.
Delimit Scope result_scope with result.
Notation "'let*' x ':=' r 'in' k" := (rbind r (fun x => k))
  (at level 10, x pattern, r at level 100, k at level 200) : result_scope.

(** Computations that thread a state (the store of array buffers, the
    random generator) and may raise. *)
Definition stateT (S A : Type) : Type := S -> result A * S.

Definition sret {S A} (a : A) : stateT S A := fun s => (Ok a, s).

Definition lift {S A} (r : result A) : stateT S A := fun s => (r, s).

Definition sbind {S A B} (m : stateT S A) (k : A -> stateT S B) : stateT S B :=
  fun s =>
    match m s with
    | (Ok a, s') => k a s'
    | (Raise e, s') => (Raise e, s')
    end.

(** A computation that neither reads nor writes the state. *)
Definition stateless {S A} (m : stateT S A) : Prop :=
  exists r, forall s, m s = (r, s).

Declare Scope state_scope.
Delimit Scope state_scope with state.
Notation "'let*' x ':=' m 'in' k" := (sbind m (fun x => k))
  (at level 10, x pattern, m at level 100, k at level 200) : state_scope.

(** ** Arithmetic of array elements *)

Class Arith (F : Type) : Type := {
  of_int : Z -> F;              (* conversion of a Python int *)
  fpow2 : Z -> F;               (* 2 ** e for a negative int e *)
  fsub : F -> F -> F;
  fmul : F -> F -> F;
  fdiv : F -> F -> F;           (* numpy division: no exception *)
  ffloor : F -> F;              (* np.floor *)
  fceil : F -> F;               (* np.ceil *)
  frint : F -> F;               (* np.rint *)
  fltb : F -> F -> bool;        (* x < y *)
  is_zero : F -> bool;
  to_int : F -> Z               (* astype(int) *)
}.

(** A Python number: [2 ** e] is an [int] for [e >= 0] and a [float]
    otherwise. *)
Inductive pynum (F : Type) : Type :=
| PyInt (z : Z)
| PyFloat (x : F).
Arguments PyInt {F} z.
Arguments PyFloat {F} x.

Section PyNum.
Context {F : Type} `{Arith F}.

Definition to_float (n : pynum F) : F :=
  match n with
  | PyInt z => of_int z
  | PyFloat x => x
  end.

Definition py_pow2 (e : Z) : pynum F :=
  if 0 <=? e then PyInt (2 ^ e) else PyFloat (fpow2 e).

Definition py_pred (n : pynum F) : pynum F :=
  match n with
  | PyInt z => PyInt (z - 1)
  | PyFloat x => PyFloat (fsub x (of_int 1))
  end.

Definition py_neg (n : pynum F) : pynum F :=
  match n with
  | PyInt z => PyInt (- z)
  | PyFloat x => PyFloat (fsub (of_int 0) x)
  end.

(** Division of Python scalars raises on a zero divisor (numpy scalars
    and arrays, divided with [fdiv], do not). *)
Definition py_div (x y : F) : result F :=
  if is_zero y then Raise ZeroDivisionError else Ok (fdiv x y).
End PyNum.

(** *** Exact rationals

    The quotient by zero, for which numpy answers an infinity or a NaN,
    has no counterpart here ([x / 0] is [0]): the statements about sample
    values keep the least-significant-bit voltage nonzero. *)

Definition Qltb (x y : Q) : bool := negb (Qle_bool y x).

(** Round half to even. *)
Definition Qrint (q : Q) : Z :=
  let f := Qfloor q in
  match Qcompare (q - inject_Z f) (1 # 2) with
  | Lt => f
  | Gt => f + 1
  | Eq => if Z.even f then f else f + 1
  end.

(** Truncation toward zero. *)
Definition Qtrunc (q : Q) : Z := Z.quot (Qnum q) (Zpos (Qden q)).

#[export] Instance Q_arith : Arith Q := {|
  of_int := inject_Z;
  fpow2 := fun e => Qpower 2 e;
  fsub := Qminus;
  fmul := Qmult;
  fdiv := Qdiv;
  ffloor := fun q => inject_Z (Qfloor q);
  fceil := fun q => inject_Z (Qceiling q);
  frint := fun q => inject_Z (Qrint q);
  fltb := Qltb;
  is_zero := fun q => Qeq_bool q 0;
  to_int := Qtrunc
|}.

(** *** IEEE 754 binary64 *)

Module B64.
Definition prec : Z := 53.
Definition emax : Z := 1024.

Definition of_Z (szero : bool) (z : Z) : spec_float :=
  binary_normalize prec emax z 0 szero.

(** Integer part and remainder of [m * 2 ^ e] for [e < 0]. *)
Definition split (m : positive) (e : Z) : Z * Z :=
  Z.div_eucl (Zpos m) (2 ^ (- e)).

Definition floor (x : spec_float) : spec_float :=
  match x with
  | S754_finite s m e =>
      if 0 <=? e then x
      else
        let '(q, r) := split m e in
        if s then of_Z true (- (if r =? 0 then q else q + 1))
        else of_Z false q
  | _ => x
  end.

Definition ceil (x : spec_float) : spec_float :=
  match x with
  | S754_finite s m e =>
      if 0 <=? e then x
      else
        let '(q, r) := split m e in
        if s then of_Z true (- q)
        else of_Z false (if r =? 0 then q else q + 1)
  | _ => x
  end.

Definition rint (x : spec_float) : spec_float :=
  match x with
  | S754_finite s m e =>
      if 0 <=? e then x
      else
        let '(q, r) := split m e in
        let n := match Z.compare (2 * r) (2 ^ (- e)) with
                 | Lt => q
                 | Gt => q + 1
                 | Eq => if Z.even q then q else q + 1
                 end in
        of_Z s (if s then - n else n)
  | _ => x
  end.

(** The cast to a 64-bit integer truncates; NaN, the infinities and
    values out of range give the smallest integer (x86-64). *)
Definition to_int64 (x : spec_float) : Z :=
  match x with
  | S754_zero _ => 0
  | S754_finite s m e =>
      let a := if 0 <=? e then Zpos m * 2 ^ e else Zpos m / 2 ^ (- e) in
      let z := if s then - a else a in
      if (- 2 ^ 63 <=? z) && (z <? 2 ^ 63) then z else - 2 ^ 63
  | _ => - 2 ^ 63
  end.

(** The double nearest to [n / d], as a decimal literal denotes it. *)
Definition ratio (n d : Z) : spec_float :=
  SFdiv prec emax (of_Z false n) (of_Z false d).

Definition zerob (x : spec_float) : bool :=
  match x with
  | S754_zero _ => true
  | _ => false
  end.
End B64.

#[export] Instance B64_arith : Arith spec_float := {|
  of_int := B64.of_Z false;
  fpow2 := fun e => SFldexp B64.prec B64.emax (B64.of_Z false 1) e;
  fsub := SFsub B64.prec B64.emax;
  fmul := SFmul B64.prec B64.emax;
  fdiv := SFdiv B64.prec B64.emax;
  ffloor := B64.floor;
  fceil := B64.ceil;
  frint := B64.rint;
  fltb := SFltb;
  is_zero := B64.zerob;
  to_int := B64.to_int64
|}.

(** ** The comparator on array values *)

Inductive ndarray (F : Type) : Type :=
| IntArray (l : list Z)
| FloatArray (l : list F).
Arguments IntArray {F} l.
Arguments FloatArray {F} l.

Section Comparator.
Context {F : Type} `{Arith F}.

(** [a[mask] = c] *)
Definition assign_masked (mask : list bool) (c : F) (a : list F) : list F :=
  zip_with (fun (m : bool) x => if m then c else x) mask a.

Definition highest_count (adc_n_bits : Z) : pynum F :=
  py_pred (py_pow2 (adc_n_bits - 1)).

Definition lowest_count (adc_n_bits : Z) : pynum F :=
  py_neg (py_pow2 (adc_n_bits - 1)).

(** [saturated_trace] is a view of [adc_counts_trace]: both masks are
    read from the one buffer, the second after the first assignment. *)
Definition apply_saturation (adc_counts_trace : list F) (adc_n_bits : Z)
    (adc_ref_voltage : F) : list F :=
  let highest := to_float (highest_count adc_n_bits) in
  let high_saturation_mask := map (fun x => fltb highest x) adc_counts_trace in
  let saturated_trace :=
    assign_masked high_saturation_mask highest adc_counts_trace in
  let lowest := to_float (lowest_count adc_n_bits) in
  let low_saturation_mask := map (fun x => fltb x lowest) saturated_trace in
  assign_masked low_saturation_mask lowest saturated_trace.

(** What [apply_saturation] does to one element. *)
Definition clip (hi lo x : F) : F :=
  let y := if fltb hi x then hi else x in
  if fltb y lo then lo else y.

Definition round_to_int (digital_trace : list F) : list Z :=
  let int_trace := map frint digital_trace in
  map to_int int_trace.

Definition perfect_comparator (trace : list F) (adc_n_bits : Z)
    (adc_ref_voltage : F) (mode output : string) : result (ndarray F) :=
  (let* lsb_voltage :=
     py_div adc_ref_voltage (to_float (highest_count adc_n_bits)) in
   let* digital_trace :=
     if String.eqb mode "floor" then
       Ok (map ffloor (map (fun x => fdiv x lsb_voltage) trace))
     else if String.eqb mode "ceiling" then
       Ok (map fceil (map (fun x => fdiv x lsb_voltage) trace))
     else Raise (ValueError ChooseFloorOrCeiling) in
   let digital_trace :=
     apply_saturation digital_trace adc_n_bits adc_ref_voltage in
   let digital_trace := round_to_int digital_trace in
   if String.eqb output "voltage" then
     Ok (FloatArray (map (fmul lsb_voltage) (map of_int digital_trace)))
   else if String.eqb output "counts" then Ok (IntArray digital_trace)
   else Raise (ValueError OutputFormatUnknown))%result.

Definition perfect_floor_comparator (trace : list F) (adc_n_bits : Z)
    (adc_ref_voltage : F) (output : string) : result (ndarray F) :=
  perfect_comparator trace adc_n_bits adc_ref_voltage "floor" output.

Definition perfect_ceiling_comparator (trace : list F) (adc_n_bits : Z)
    (adc_ref_voltage : F) (output : string) : result (ndarray F) :=
  perfect_comparator trace adc_n_bits adc_ref_voltage "ceiling" output.
End Comparator.


(** ** The comparator on a store of buffers

    An array object is the location of its buffer; [a[:]] is a new view
    of the same buffer, hence the same location.  Every numpy operation
    that returns a new array allocates. *)

Section ComparatorHeap.
Context {F : Type} `{Arith F}.

Definition alloc (a : ndarray F) : stateT (list (ndarray F)) nat :=
  fun h => (Ok (length h), h ++ [a]).

Definition load_floats (p : nat) : stateT (list (ndarray F)) (list F) :=
  fun h =>
    match h !! p with
    | Some (FloatArray l) => (Ok l, h)
    | _ => (Raise TypeError, h)
    end.

Definition load_ints (p : nat) : stateT (list (ndarray F)) (list Z) :=
  fun h =>
    match h !! p with
    | Some (IntArray l) => (Ok l, h)
    | _ => (Raise TypeError, h)
    end.

Definition store_floats (p : nat) (l : list F)
    : stateT (list (ndarray F)) unit :=
  fun h => (Ok tt, <[p := FloatArray l]> h).

(** A numpy function applied to the whole of a float array. *)
Definition ufunc (f : F -> F) (p : nat) : stateT (list (ndarray F)) nat :=
  (let* xs := load_floats p in alloc (FloatArray (map f xs)))%state.

Definition apply_saturation_st (adc_counts_trace : nat) (adc_n_bits : Z)
    (adc_ref_voltage : F) : stateT (list (ndarray F)) nat :=
  (let saturated_trace := adc_counts_trace in
   let highest := to_float (highest_count adc_n_bits) in
   let* xs := load_floats adc_counts_trace in
   let high_saturation_mask := map (fun x => fltb highest x) xs in
   let* ys := load_floats saturated_trace in
   let* _ := store_floats saturated_trace
               (assign_masked high_saturation_mask highest ys) in
   let lowest := to_float (lowest_count adc_n_bits) in
   let* xs := load_floats adc_counts_trace in
   let low_saturation_mask := map (fun x => fltb x lowest) xs in
   let* ys := load_floats saturated_trace in
   let* _ := store_floats saturated_trace
               (assign_masked low_saturation_mask lowest ys) in
   sret saturated_trace)%state.

Definition round_to_int_st (digital_trace : nat)
    : stateT (list (ndarray F)) nat :=
  (let* int_trace := ufunc frint digital_trace in
   let* xs := load_floats int_trace in
   alloc (IntArray (map to_int xs)))%state.

Definition perfect_comparator_st (trace : nat) (adc_n_bits : Z)
    (adc_ref_voltage : F) (mode output : string)
    : stateT (list (ndarray F)) nat :=
  (let* lsb_voltage :=
     lift (py_div adc_ref_voltage (to_float (highest_count adc_n_bits))) in
   let* digital_trace :=
     if String.eqb mode "floor" then
       let* quot := ufunc (fun x => fdiv x lsb_voltage) trace in
       ufunc ffloor quot
     else if String.eqb mode "ceiling" then
       let* quot := ufunc (fun x => fdiv x lsb_voltage) trace in
       ufunc fceil quot
     else lift (Raise (ValueError ChooseFloorOrCeiling)) in
   let* digital_trace :=
     apply_saturation_st digital_trace adc_n_bits adc_ref_voltage in
   let* digital_trace := round_to_int_st digital_trace in
   if String.eqb output "voltage" then
     let* cs := load_ints digital_trace in
     let* as_float := alloc (FloatArray (map of_int cs)) in
     ufunc (fmul lsb_voltage) as_float
   else if String.eqb output "counts" then sret digital_trace
   else lift (Raise (ValueError OutputFormatUnknown)))%state.
End ComparatorHeap.


(** ** The digitiser *)

Record Station : Type := { station_get_id : Z }.

Record Channel : Type := {
  get_id : Z;
  get_times : list Q;
  get_trace : list Q;
  get_sampling_rate : Q;
  get_trace_start_time : Q
}.

(** What [get_digital_trace] uses from outside the module: the constants of
    [NuRadioReco.utilities.units], numpy's process-wide random generator
    (a state of type [G]), the helpers of [trace_utilities] and of scipy.
    A collaborator that fails returns [None]. *)
Class Collaborators (G : Type) : Type := {
  units_V : Q;
  units_GHz : Q;
  units_ns : Q;
  random_uniform : G -> Q * G;
  butterworth_filter_trace : list Q -> Q -> Q * Q -> option (list Q);
  delay_trace : list Q -> Q -> Q -> Z -> option (list Q);
  resample : list Q -> Z -> option (list Q);
  interp1d :
    list Q -> list Q -> Q * Q -> option (list Q -> option (list Q));
  upsampling_fir : ndarray Q -> Q -> Z -> pynum Q -> option (ndarray Q)
}.

Definition collab {A} (o : option A) : result A :=
  match o with
  | Some a => Ok a
  | None => Raise CollaboratorError
  end.

(** *** numpy and Python helpers *)

Definition array_len {F} (a : ndarray F) : nat :=
  match a with
  | IntArray l => length l
  | FloatArray l => length l
  end.

(** [a[:-1]] *)
Definition drop_last {F} (a : ndarray F) : ndarray F :=
  match a with
  | IntArray l => IntArray (removelast l)
  | FloatArray l => FloatArray (removelast l)
  end.

(** [l[:n]] *)
Definition slice_to {A} (n : Z) (l : list A) : list A :=
  if 0 <=? n then take (Z.to_nat n) l
  else take (length l - Z.to_nat (- n)) l.

(** [l[0]] and [l[-1]] *)
Definition first_item {A} (l : list A) : result A :=
  match l with
  | x :: _ => Ok x
  | [] => Raise IndexError
  end.

Definition last_item {A} (l : list A) : result A :=
  match last l with
  | Some x => Ok x
  | None => Raise IndexError
  end.

Definition arange (n : nat) : list Q :=
  map (fun i => inject_Z (Z.of_nat i)) (seq 0 n).

(** [np.linspace(start, stop, num)], end point included. *)
Definition linspace (start stop : Q) (num : Z) : result (list Q) :=
  if num <? 0 then Raise (ValueError NegativeNumberOfSamples)
  else
    let div := num - 1 in
    let delta := (stop - start)%Q in
    let y := arange (Z.to_nat num) in
    let y :=
      if 0 <? div then
        let step := (delta / inject_Z div)%Q in
        if Qeq_bool step 0
        then map (fun v => (v / inject_Z div * delta)%Q) y
        else map (fun v => (v * step)%Q) y
      else map (fun v => (v * delta)%Q) y in
    let y := map (fun v => (v + start)%Q) y in
    Ok (if 1 <? num then <[pred (length y) := stop]> y else y).

(** [int(n)] *)
Definition py_int (n : pynum Q) : Z :=
  match n with
  | PyInt z => z
  | PyFloat q => Qtrunc q
  end.

(** [n * 4] *)
Definition py_times4 (n : pynum Q) : pynum Q :=
  match n with
  | PyInt z => PyInt (z * 4)
  | PyFloat q => PyFloat (q * 4)%Q
  end.

Definition getitem (d : gmap string (option (pynum Q))) (k : string)
    : result (option (pynum Q)) :=
  match d !! k with
  | Some v => Ok v
  | None => Raise (KeyError k)
  end.

(** [v * unit], where [v] may be [None] *)
Definition times_unit (v : option (pynum Q)) (u : Q) : result Q :=
  match v with
  | Some n => Ok (to_float n * u)%Q
  | None => Raise TypeError
  end.

(** A result other than the [ValueError] of the sampling-rate check. *)
Definition rate_error_free {A} (r : result A) : Prop :=
  forall id, r <> Raise (ValueError (AdcRateGreaterThanChannel id)).

(** *** The steps of [get_digital_trace] *)

Definition mandatory_fields : list string :=
  ["adc_nbits"; "adc_reference_voltage"; "adc_sampling_frequency"]%string.

Definition adc_label (trigger_adc : bool) (field : string) : string :=
  if trigger_adc then String.append "trigger_" field else field.

Fixpoint check_fields (trigger_adc : bool)
    (det_channel : gmap string (option (pynum Q))) (channel : Channel)
    (fields : list string) : result unit :=
  match fields with
  | [] => Ok tt
  | field :: rest =>
      let field_check := adc_label trigger_adc field in
      match det_channel !! field_check with
      | None =>
          Raise (ValueError (FieldNotPresent field_check (get_id channel)))
      | Some _ => check_fields trigger_adc det_channel channel rest
      end
  end.

Record AdcParameters : Type := {
  adc_time_delay : Q;
  adc_n_bits : option (pynum Q);
  adc_ref_voltage : Q;
  adc_sampling_frequency : Q
}.

Definition new_n_samples (adc_sampling_frequency upsampling_frequency : Q)
    (len_delayed_trace : nat) : result Z :=
  (let* ratio := py_div adc_sampling_frequency upsampling_frequency in
   Ok (Qtrunc (ratio * inject_Z (Z.of_nat len_delayed_trace))))%result.

Definition resampled_times (adc_sampling_frequency : Q) (new_n_samples : Z)
    (trace_start_time : Q) : result (list Q) :=
  (let* stop := py_div (inject_Z new_n_samples) adc_sampling_frequency in
   let* times := linspace 0 stop new_n_samples in
   Ok (map (fun t => (t + trace_start_time)%Q) times))%result.

Definition ensure_even (digital_trace : ndarray Q) : ndarray Q :=
  if Z.of_nat (array_len digital_trace) mod 2 =? 1
  then drop_last digital_trace
  else digital_trace.

Definition adc_types (adc_type : string)
    : option (list Q -> Z -> Q -> string -> result (ndarray Q)) :=
  if String.eqb adc_type "perfect_floor_comparator"
  then Some perfect_floor_comparator
  else if String.eqb adc_type "perfect_ceiling_comparator"
  then Some perfect_ceiling_comparator
  else None.

(** The bit count is used as a Python [int]; [None] makes the comparator
    raise, and a [float] is outside this model. *)
Definition digitise (adc_type : string) (resampled_trace : list Q)
    (adc_n_bits : option (pynum Q)) (adc_ref_voltage : Q) (output : string)
    : result (ndarray Q) :=
  match adc_types adc_type with
  | None => Raise (KeyError adc_type)
  | Some comparator =>
      match adc_n_bits with
      | Some (PyInt bits) =>
          comparator resampled_trace bits adc_ref_voltage output
      | _ => Raise TypeError
      end
  end.

Definition check_sampling_rate (adc_sampling_frequency : Q)
    (channel : Channel) : result unit :=
  if Qltb (get_sampling_rate channel) adc_sampling_frequency
  then Raise (ValueError (AdcRateGreaterThanChannel (get_id channel)))
  else Ok tt.

(** The trace of the channel, or the output of the diode when one is
    given. *)
Definition input_trace (diode : option (Channel -> option (list Q)))
    (channel : Channel) : result (list Q) :=
  match diode with
  | Some d => collab (d channel)
  | None => Ok (get_trace channel)
  end.

Section Digitiser.
Context {G : Type} `{Collaborators G}.

Definition read_adc_parameters (trigger_adc : bool)
    (det_channel : gmap string (option (pynum Q))) : result AdcParameters :=
  (let delay :=
     match det_channel !! adc_label trigger_adc "adc_time_delay" with
     | Some (Some v) => (to_float v * units_ns)%Q
     | _ => 0%Q
     end in
   let* n_bits := getitem det_channel (adc_label trigger_adc "adc_nbits") in
   let* v :=
     getitem det_channel (adc_label trigger_adc "adc_reference_voltage") in
   let* ref_voltage := times_unit v units_V in
   let* f :=
     getitem det_channel (adc_label trigger_adc "adc_sampling_frequency") in
   let* sampling_frequency := times_unit f units_GHz in
   Ok {| adc_time_delay := delay;
         adc_n_bits := n_bits;
         adc_ref_voltage := ref_voltage;
         adc_sampling_frequency := sampling_frequency |})%result.

Definition add_clock_offset (random_clock_offset : bool)
    (adc_time_delay adc_sampling_frequency : Q) : stateT G Q :=
  if random_clock_offset then
    fun g =>
      let '(clock_offset, g') := random_uniform g in
      ((let* shift := py_div clock_offset adc_sampling_frequency in
        Ok (adc_time_delay + shift)%Q)%result, g')
  else sret adc_time_delay.

(** [int(nyquist_zone)] cannot fail on a rational, so the error of the
    [except] branch has no counterpart. *)
Definition choose_nyquist_zone (nyquist_zone : option (pynum Q))
    (bandwidth_edge adc_sampling_frequency input_sampling_frequency : Q)
    (trace : list Q) : result (list Q) :=
  match nyquist_zone with
  | Some zone =>
      if Qltb (to_float zone) 1
      then Raise (ValueError NyquistZoneLessThanOne)
      else
        let zone :=
          match zone with
          | PyInt z => z
          | PyFloat _ => py_int zone
          end in
        let passband :=
          ((inject_Z (zone - 1) * adc_sampling_frequency / 2
            + bandwidth_edge)%Q,
           (inject_Z zone * adc_sampling_frequency / 2 - bandwidth_edge)%Q) in
        if Qltb (input_sampling_frequency / 2) (snd passband)
        then Raise (ValueError LargerSamplingFrequency)
        else collab (butterworth_filter_trace trace input_sampling_frequency
                       passband)
  | None => Ok trace
  end.

Definition resample_to_adc (channel : Channel)
    (times trace filtered_trace : list Q)
    (input_sampling_frequency adc_sampling_frequency adc_time_delay : Q)
    : result (list Q) :=
  (let* ratio := py_div input_sampling_frequency adc_sampling_frequency in
   let delayed_samples := Z.of_nat (length trace) - Qrint ratio - 1 in
   let* delayed_trace :=
     collab (delay_trace filtered_trace input_sampling_frequency
               adc_time_delay delayed_samples) in
   let* delayed_start_time := py_div 1%Q adc_sampling_frequency in
   let delayed_times := map (fun t => (t + delayed_start_time)%Q) times in
   let delayed_times := slice_to delayed_samples delayed_times in
   let upsampling_frequency := (5 * units_GHz)%Q in
   let* (perfectly_upsampled_trace, perfectly_upsampled_times) :=
     if Qltb input_sampling_frequency upsampling_frequency then
       let* quot :=
         py_div (upsampling_frequency
                 * inject_Z (Z.of_nat (length delayed_trace)))%Q
                input_sampling_frequency in
       let upsampling_nsamples := Qtrunc quot in
       let* upsampled :=
         collab (resample delayed_trace upsampling_nsamples) in
       let upsampled_times :=
         map (fun i => (i / upsampling_frequency)%Q)
             (arange (length upsampled)) in
       let* t0 := first_item delayed_times in
       Ok (upsampled, map (fun t => (t + t0)%Q) upsampled_times)
     else Ok (delayed_trace, delayed_times) in
   let* fill_low := first_item perfectly_upsampled_trace in
   let* fill_high := last_item perfectly_upsampled_trace in
   let* interpolate_delayed_trace :=
     collab (interp1d perfectly_upsampled_times perfectly_upsampled_trace
               (fill_low, fill_high)) in
   let* n := new_n_samples adc_sampling_frequency upsampling_frequency
               (length delayed_trace) in
   let* times := resampled_times adc_sampling_frequency n
                   (get_trace_start_time channel) in
   collab (interpolate_delayed_trace times))%result.

Definition fir_upsampling (upsampling_factor : option (pynum Q))
    (trigger_adc : bool) (det_channel : gmap string (option (pynum Q)))
    (digital_trace : ndarray Q) (adc_sampling_frequency : Q)
    : result (ndarray Q * Q) :=
  match upsampling_factor with
  | Some factor =>
      let ntaps :=
        match det_channel !! adc_label trigger_adc "adc_ntaps" with
        | Some (Some n) => n
        | _ => py_times4 factor
        end in
      if Qle_bool 2 (to_float factor) then
        let factor := py_int factor in
        (let* upsampled_trace :=
           collab (upsampling_fir digital_trace adc_sampling_frequency
                     factor ntaps) in
         Ok (upsampled_trace,
             (adc_sampling_frequency * inject_Z factor)%Q))%result
      else Ok (digital_trace, adc_sampling_frequency)
  | None => Ok (digital_trace, adc_sampling_frequency)
  end.

(** Lines 317 to 386: from the filtered trace to the returned value. *)
Definition process_filtered_trace (channel : Channel) (trigger_adc : bool)
    (det_channel : gmap string (option (pynum Q))) (adc_type : string)
    (return_sampling_frequency : bool) (output : string)
    (upsampling_factor : option (pynum Q)) (trace filtered_trace : list Q)
    (p : AdcParameters) (time_delay : Q) : result (ndarray Q * option Q) :=
  (let* resampled_trace :=
     resample_to_adc channel (get_times channel) trace filtered_trace
       (get_sampling_rate channel) (adc_sampling_frequency p) time_delay in
   let* digital_trace :=
     digitise adc_type resampled_trace (adc_n_bits p) (adc_ref_voltage p)
       output in
   let* (digital_trace, sampling_frequency) :=
     fir_upsampling upsampling_factor trigger_adc det_channel digital_trace
       (adc_sampling_frequency p) in
   let digital_trace := ensure_even digital_trace in
   Ok (digital_trace,
       if return_sampling_frequency then Some sampling_frequency else None)
  )%result.

Definition get_digital_trace (station : Station)
    (det : Z -> Z -> gmap string (option (pynum Q))) (channel : Channel)
    (trigger_adc random_clock_offset : bool) (adc_type : string)
    (diode : option (Channel -> option (list Q)))
    (return_sampling_frequency : bool) (output : string)
    (upsampling_factor nyquist_zone : option (pynum Q)) (bandwidth_edge : Q)
    : stateT G (ndarray Q * option Q) :=
  (let det_channel := det (station_get_id station) (get_id channel) in
   let* _ :=
     lift (check_fields trigger_adc det_channel channel mandatory_fields) in
   let* trace := lift (input_trace diode channel) in
   let* p := lift (read_adc_parameters trigger_adc det_channel) in
   let* time_delay :=
     add_clock_offset random_clock_offset (adc_time_delay p)
       (adc_sampling_frequency p) in
   let* _ := lift (check_sampling_rate (adc_sampling_frequency p) channel) in
   let* filtered_trace :=
     lift (choose_nyquist_zone nyquist_zone bandwidth_edge
             (adc_sampling_frequency p) (get_sampling_rate channel) trace) in
   lift (process_filtered_trace channel trigger_adc det_channel adc_type
           return_sampling_frequency output upsampling_factor trace
           filtered_trace p time_delay))%state.

End Digitiser.

(** ** The quantizer and the sampling grid as the specification words them *)

Inductive comparator_mode : Type := Floor | Ceiling.
Inductive output_unit : Type := Voltage | Counts.

Definition mode_name (m : comparator_mode) : string :=
  match m with
  | Floor => "floor"
  | Ceiling => "ceiling"
  end.

Definition output_name (o : output_unit) : string :=
  match o with
  | Voltage => "voltage"
  | Counts => "counts"
  end.

Definition max_count (bit_depth : Z) : Z := 2 ^ (bit_depth - 1) - 1.
Definition min_count (bit_depth : Z) : Z := - 2 ^ (bit_depth - 1).

Definition lsb (bit_depth : Z) (reference_voltage : Q) : Q :=
  (reference_voltage / inject_Z (max_count bit_depth))%Q.

Definition raw_count (m : comparator_mode) (lsb sample : Q) : Z :=
  match m with
  | Floor => Qfloor (sample / lsb)
  | Ceiling => Qceiling (sample / lsb)
  end.

Definition saturate (bit_depth : Z) (count : Z) : Z :=
  if max_count bit_depth <? count then max_count bit_depth
  else if count <? min_count bit_depth then min_count bit_depth
  else count.

(** Saturation of a count that need not be integral. *)
Definition clamp (bit_depth : Z) (count : Q) : Q :=
  if Qltb (inject_Z (max_count bit_depth)) count
  then inject_Z (max_count bit_depth)
  else if Qltb count (inject_Z (min_count bit_depth))
  then inject_Z (min_count bit_depth)
  else count.

Definition quantize_count (bit_depth : Z) (reference_voltage : Q)
    (m : comparator_mode) (sample : Q) : Z :=
  Qrint (inject_Z (saturate bit_depth
                     (raw_count m (lsb bit_depth reference_voltage) sample))).

Definition quantize (trace : list Q) (bit_depth : Z) (reference_voltage : Q)
    (m : comparator_mode) (o : output_unit) : ndarray Q :=
  let counts := map (quantize_count bit_depth reference_voltage m) trace in
  match o with
  | Counts => IntArray counts
  | Voltage =>
      FloatArray
        (map (fun c => (lsb bit_depth reference_voltage * inject_Z c)%Q)
             counts)
  end.



(** ** Sample collaborators and inputs *)

Module Sample.

Definition lcg_uniform (g : Z) : Q * Z :=
  let g' := (1103515245 * g + 12345) mod 2 ^ 31 in
  (Qmake g' (2 ^ 31), g').

(** Nearest-sample resampling. *)
Definition nearest (l : list Q) (n : Z) : list Q :=
  map (fun i => nth (i * length l / Z.to_nat n)%nat l 0%Q)
      (seq 0 (Z.to_nat n)).

(** Piecewise linear interpolation with constant extrapolation. *)
Fixpoint linear (xs ys : list Q) (fill_high t : Q) : Q :=
  match xs, ys with
  | x0 :: ((x1 :: _) as xs'), y0 :: ((y1 :: _) as ys') =>
      if Qle_bool t x1
      then (y0 + (t - x0) * (y1 - y0) / (x1 - x0))%Q
      else linear xs' ys' fill_high t
  | _, _ => fill_high
  end.

Definition interpolate (xs ys : list Q) (fill : Q * Q) (t : Q) : Q :=
  match xs with
  | x0 :: _ => if Qltb t x0 then fst fill else linear xs ys (snd fill) t
  | [] => snd fill
  end.

(** The trace read [delay] later, by interpolation. *)
Definition delayed (trace : list Q) (rate delay : Q) (n : Z) : list Q :=
  let xs := map (fun i => (i / rate)%Q) (arange (length trace)) in
  map (fun i => interpolate xs trace (0, 0)%Q (i / rate - delay)%Q)
      (arange (Z.to_nat n)).

Definition hold (a : ndarray Q) (factor : Z) : ndarray Q :=
  match a with
  | IntArray l =>
      FloatArray (flat_map (fun c => repeat (inject_Z c) (Z.to_nat factor)) l)
  | FloatArray l =>
      FloatArray (flat_map (fun x => repeat x (Z.to_nat factor)) l)
  end.

#[export] Instance collaborators : Collaborators Z := {|
  units_V := 1;
  units_GHz := 1;
  units_ns := 1;
  random_uniform := lcg_uniform;
  butterworth_filter_trace := fun trace _ _ => Some trace;
  delay_trace := fun trace rate delay n => Some (delayed trace rate delay n);
  resample := fun trace n => Some (nearest trace n);
  interp1d := fun xs ys fill =>
    Some (fun ts => Some (map (interpolate xs ys fill) ts));
  upsampling_fir := fun a _ factor _ => Some (hold a factor)
|}.

Definition station : Station := {| station_get_id := 11 |}.

(** Sixteen samples of a triangle wave at 5 GHz. *)
Definition samples : list Q :=
  [0; 1 # 2; 1; 1 # 2; 0; - (1 # 2); - 1; - (1 # 2);
   0; 1 # 2; 1; 1 # 2; 0; - (1 # 2); - 1; - (1 # 2)]%Q.

Definition channel : Channel := {|
  get_id := 3;
  get_times := map (fun i => (i / 5)%Q) (arange 16);
  get_trace := samples;
  get_sampling_rate := 5;
  get_trace_start_time := 0
|}.

Definition det_channel : gmap string (option (pynum Q)) :=
  <["adc_nbits" := Some (PyInt 8)]>
    (<["adc_reference_voltage" := Some (PyFloat 1%Q)]>
       (<["adc_sampling_frequency" := Some (PyFloat 2%Q)]> ∅)).

Definition det (station_id channel_id : Z)
    : gmap string (option (pynum Q)) := det_channel.

(** An ADC sampling as fast as the channel is simulated. *)
Definition det_equal_rate (station_id channel_id : Z)
    : gmap string (option (pynum Q)) :=
  <["adc_sampling_frequency" := Some (PyFloat 5%Q)]> det_channel.

End Sample.

(** ** The exceptions of a computation *)

(** Every exception [r] can raise satisfies [P]. *)
Definition may_raise {A} (P : exn -> Prop) (r : result A) : Prop :=
  forall e, r = Raise e -> P e.

(** What an exception of [get_digital_trace] can be: the mode error of
    the comparator is excluded, a missing field is one of the mandatory
    ones and is absent, the errors that name a channel name this one, and
    a missing key is the ADC type. *)
Definition pipeline_error (channel : Channel) (trigger_adc : bool)
    (det_channel : gmap string (option (pynum Q))) (adc_type : string)
    (e : exn) : Prop :=
  match e with
  | ValueError ChooseFloorOrCeiling => False
  | ValueError (FieldNotPresent field id) =>
      id = get_id channel
      /\ In field (map (adc_label trigger_adc) mandatory_fields)
      /\ det_channel !! field = None
  | ValueError (AdcRateGreaterThanChannel id) => id = get_id channel
  | KeyError key => key = adc_type /\ adc_types adc_type = None
  | _ => True
  end.

(** The five detector fields [get_digital_trace] looks up. *)
Definition adc_fields : list string :=
  ["adc_time_delay"; "adc_nbits"; "adc_reference_voltage";
   "adc_sampling_frequency"; "adc_ntaps"]%string.

(** The channel with its trace replaced. *)
Definition with_trace (channel : Channel) (trace : list Q) : Channel :=
  {| get_id := get_id channel;
     get_times := get_times channel;
     get_trace := trace;
     get_sampling_rate := get_sampling_rate channel;
     get_trace_start_time := get_trace_start_time channel |}.

(** ** The module's [run]

    [channels] is what [station.iter_channels()] yields; the list
    returned with the generator holds the channels as the call leaves
    them.  [set_trace] is the method of the channel class, [units_MHz]
    the constant of the default [bandwidth_edge].  The time the module
    accumulates is wall-clock time and is left out. *)

Section Run.
Context {G : Type} `{Collaborators G}.
Variable set_trace : Channel -> ndarray Q -> Q -> Channel.
Variable units_MHz : Q.

Fixpoint run (station : Station)
    (det : Z -> Z -> gmap string (option (pynum Q)))
    (random_clock_offset : bool) (adc_type output : string)
    (upsampling_factor : option (pynum Q)) (channels : list Channel) (g : G)
    : result unit * (list Channel * G) :=
  match channels with
  | [] => (Ok tt, ([], g))
  | channel :: rest =>
      match get_digital_trace station det channel false random_clock_offset
              adc_type None true output upsampling_factor None
              (20 * units_MHz)%Q g with
      | (Ok (digital_trace, Some adc_sampling_frequency), g') =>
          let '(r, (rest', g'')) :=
            run station det random_clock_offset adc_type output
              upsampling_factor rest g' in
          (r, (set_trace channel digital_trace adc_sampling_frequency
                 :: rest', g''))
      | (Ok (_, None), g') => (Raise TypeError, (channel :: rest, g'))
      | (Raise e, g') => (Raise e, (channel :: rest, g'))
      end
  end.

End Run.

Module SampleRun.

Definition as_floats (a : ndarray Q) : list Q :=
  match a with
  | IntArray l => map inject_Z l
  | FloatArray l => l
  end.

Definition set_trace (channel : Channel) (values : ndarray Q) (rate : Q)
    : Channel :=
  {| get_id := get_id channel;
     get_times :=
       map (fun i => (get_trace_start_time channel + i / rate)%Q)
           (arange (array_len values));
     get_trace := as_floats values;
     get_sampling_rate := rate;
     get_trace_start_time := get_trace_start_time channel |}.

(** A second channel, simulated at 1 GHz: too slow for a 2 GHz ADC. *)
Definition slow_channel : Channel := {|
  get_id := 4;
  get_times := arange 16;
  get_trace := Sample.samples;
  get_sampling_rate := 1;
  get_trace_start_time := 0
|}.

End SampleRun.

(** * Properties *)

(** ** The definitions at work *)

Example Qrint_ties :
  map Qrint [5 # 2; 7 # 2; - (5 # 2); 1 # 2; 13 # 5]%Q = [2; 4; - 2; 0; 3].
Proof. reflexivity. Qed.

Example Qtrunc_toward_zero : map Qtrunc [7 # 2; - (7 # 2)]%Q = [3; - 3].
Proof. reflexivity. Qed.

Example slice_to_negative : slice_to (- 1) [1; 2; 3] = [1; 2].
Proof. reflexivity. Qed.

Example binary64_tenth :
  B64.ratio 1 10 = S754_finite false 7205759403792794 (- 56).
Proof. vm_compute. reflexivity. Qed.

Example binary64_rounding :
  map B64.rint [B64.ratio 5 2; B64.ratio 7 2; B64.ratio (- 5) 2]
  = [B64.of_Z false 2; B64.of_Z false 4; B64.of_Z false (- 2)]
  /\ map B64.floor [B64.ratio 5 2; B64.ratio (- 5) 2]
     = [B64.of_Z false 2; B64.of_Z false (- 3)]
  /\ map B64.ceil [B64.ratio 5 2; B64.ratio (- 5) 2]
     = [B64.of_Z false 3; B64.of_Z false (- 2)].
Proof. vm_compute. repeat split. Qed.

Example comparator_counts :
  perfect_comparator [3 # 2; 10; - 20; 1 # 3]%Q 4 (33 # 10)%Q "floor" "counts"
  = Ok (IntArray [3; 7; - 8; 0])
  /\ perfect_comparator [B64.ratio 3 2; B64.ratio 10 1; B64.ratio (- 20) 1]
       4 (B64.ratio 33 10) "floor" "counts"
     = Ok (IntArray [3; 7; - 8]).
Proof. split; vm_compute; reflexivity. Qed.

(** Ten times the reference voltage saturates in binary64 as well. *)
Example comparator_full_scale_binary64 :
  perfect_comparator [B64.ratio 10 1; B64.ratio (- 10) 1] 8 (B64.ratio 1 1)
    "floor" "counts"
  = Ok (IntArray [127; - 128]).
Proof. vm_compute. reflexivity. Qed.

Example comparator_unknown_mode :
  perfect_comparator [1%Q] 8 1%Q "round" "counts"
  = Raise (ValueError ChooseFloorOrCeiling).
Proof. reflexivity. Qed.

Example comparator_one_bit :
  perfect_comparator [1%Q] 1 1%Q "floor" "counts" = Raise ZeroDivisionError.
Proof. reflexivity. Qed.

Example linspace_end_point :
  linspace 0 (5 # 2) 5 = Ok [0 # 8; 5 # 8; 10 # 8; 15 # 8; 5 # 2]%Q.
Proof. vm_compute. reflexivity. Qed.

(** Sixteen samples at 5 GHz digitised at 2 GHz with 8 bits: thirteen
    delayed samples give five instants, and the odd fifth sample is
    dropped. *)
Example digitise_sample_channel :
  get_digital_trace (H := Sample.collaborators) Sample.station
    Sample.det Sample.channel false false "perfect_floor_comparator"
    None true "counts" None None (1 # 50) 1
  = (Ok (IntArray [0; 39; 15; - 72], Some 2%Q), 1).
Proof. vm_compute. reflexivity. Qed.

(** With the clock offset on, the result depends on the generator. *)
Example clock_offset_moves_samples :
  get_digital_trace (H := Sample.collaborators) Sample.station
    Sample.det Sample.channel false true "perfect_floor_comparator"
    None true "counts" None None (1 # 50) 1
  = (Ok (IntArray [0; 0; 88; - 101], Some 2%Q), 1103527590).
Proof. vm_compute. reflexivity. Qed.

(** A zone given as a float is truncated before the passband is
    computed. *)
Example nyquist_zone_float :
  choose_nyquist_zone (H := Sample.collaborators) (Some (PyFloat (3 # 2)%Q))
    (1 # 50) 2 5 Sample.samples
  = choose_nyquist_zone (H := Sample.collaborators) (Some (PyInt 1))
      (1 # 50) 2 5 Sample.samples.
Proof. reflexivity. Qed.

Example missing_field :
  fst (get_digital_trace (H := Sample.collaborators) Sample.station
         (fun _ _ => delete "adc_nbits"%string Sample.det_channel)
         Sample.channel false false "perfect_floor_comparator" None true
         "counts" None None (1 # 50) 1)
  = Raise (ValueError (FieldNotPresent "adc_nbits" 3)).
Proof. vm_compute. reflexivity. Qed.

(** ** Exact arithmetic on integral values *)

Lemma Qltb_inject_Z (a b : Z) : Qltb (inject_Z a) (inject_Z b) = (a <? b).
Proof.
  unfold Qltb, Qle_bool. cbn. rewrite !Z.mul_1_r.
  destruct (Z.leb_spec b a), (Z.ltb_spec a b); cbn; lia.
Qed.

Lemma Qltb_lt (x y : Q) : Qltb x y = true <-> (x < y)%Q.
Proof.
  unfold Qltb. rewrite negb_true_iff. split.
  - intros E. apply Qnot_le_lt. intros L.
    apply Qle_bool_iff in L. congruence.
  - intros L. destruct (Qle_bool y x) eqn:E; [|reflexivity].
    apply Qle_bool_iff in E. exfalso. exact (Qlt_not_le _ _ L E).
Qed.

Lemma Qltb_ge (x y : Q) : Qltb x y = false <-> (y <= x)%Q.
Proof.
  unfold Qltb. rewrite negb_false_iff. apply Qle_bool_iff.
Qed.

Lemma Qrint_inject_Z (n : Z) : Qrint (inject_Z n) = n.
Proof.
  unfold Qrint. rewrite Qfloor_Z.
  assert (L : (inject_Z n - inject_Z n < 1 # 2)%Q).
  { unfold Qlt, Qminus, Qplus, Qopp, inject_Z. cbn [Qnum Qden]. lia. }
  destruct (Qcompare_spec (inject_Z n - inject_Z n) (1 # 2)) as [E|_|G].
  - rewrite E in L. discriminate L.
  - reflexivity.
  - exfalso. exact (Qlt_irrefl _ (Qlt_trans _ _ _ L G)).
Qed.

Lemma Qtrunc_inject_Z (n : Z) : Qtrunc (inject_Z n) = n.
Proof. unfold Qtrunc. cbn. apply Z.quot_1_r. Qed.

Lemma max_count_pos (b : Z) : 2 <= b -> 1 <= max_count b.
Proof.
  intros Hb. unfold max_count.
  pose proof (Z.pow_le_mono_r 2 1 (b - 1)) as P.
  rewrite Z.pow_1_r in P. lia.
Qed.

Lemma min_le_max_count (b : Z) : 1 <= b -> min_count b <= max_count b.
Proof.
  intros Hb. unfold min_count, max_count.
  assert (0 < 2 ^ (b - 1)) by (apply Z.pow_pos_nonneg; lia). lia.
Qed.

Lemma saturate_range (b c : Z) :
  1 <= b -> min_count b <= saturate b c <= max_count b.
Proof.
  intros Hb. pose proof (min_le_max_count b Hb). unfold saturate.
  destruct (Z.ltb_spec (max_count b) c); [lia|].
  destruct (Z.ltb_spec c (min_count b)); lia.
Qed.

Lemma saturate_id (b c : Z) :
  min_count b <= c <= max_count b -> saturate b c = c.
Proof.
  intros Hc. unfold saturate.
  destruct (Z.ltb_spec (max_count b) c); [lia|].
  destruct (Z.ltb_spec c (min_count b)); lia.
Qed.

(** ** The comparator over any arithmetic *)

Section ComparatorFacts.
Context {F : Type} `{Arith F}.

Lemma assign_masked_map (f : F -> bool) (c : F) (xs : list F) :
  assign_masked (map f xs) c xs = map (fun x => if f x then c else x) xs.
Proof.
  unfold assign_masked. induction xs as [|x xs IH]; cbn; [reflexivity|].
  now rewrite IH.
Qed.

Lemma highest_count_int (b : Z) :
  1 <= b -> highest_count b = PyInt (F := F) (max_count b).
Proof.
  intros Hb. unfold highest_count, py_pow2.
  destruct (Z.leb_spec 0 (b - 1)); [reflexivity | lia].
Qed.

Lemma lowest_count_int (b : Z) :
  1 <= b -> lowest_count b = PyInt (F := F) (min_count b).
Proof.
  intros Hb. unfold lowest_count, py_pow2.
  destruct (Z.leb_spec 0 (b - 1)); [reflexivity | lia].
Qed.

Lemma apply_saturation_clip (xs : list F) (b : Z) (ref : F) :
  apply_saturation xs b ref =
  map (clip (to_float (highest_count b)) (to_float (lowest_count b))) xs.
Proof.
  unfold apply_saturation. rewrite !assign_masked_map, map_map.
  reflexivity.
Qed.

End ComparatorFacts.

(** ** The comparator over exact rationals *)

Lemma clip_inject_Z (b c : Z) :
  1 <= b ->
  clip (inject_Z (max_count b)) (inject_Z (min_count b)) (inject_Z c)
  = inject_Z (saturate b c).
Proof.
  intros Hb. pose proof (min_le_max_count b Hb) as Hm.
  unfold clip, saturate. cbn [fltb Q_arith]. rewrite Qltb_inject_Z.
  destruct (Z.ltb_spec (max_count b) c).
  - rewrite Qltb_inject_Z.
    destruct (Z.ltb_spec (max_count b) (min_count b)); [lia | reflexivity].
  - rewrite Qltb_inject_Z. now destruct (c <? min_count b).
Qed.

Lemma max_count_nonzero (b : Z) :
  2 <= b -> ~ (inject_Z (max_count b) == 0)%Q.
Proof.
  intros Hb E. pose proof (max_count_pos b Hb).
  unfold Qeq in E. cbn in E. lia.
Qed.

Lemma lsb_voltage_ok (b : Z) (ref : Q) :
  2 <= b -> py_div ref (to_float (highest_count b)) = Ok (lsb b ref).
Proof.
  intros Hb. rewrite highest_count_int by lia. unfold py_div.
  cbn [to_float is_zero of_int fdiv Q_arith].
  destruct (Qeq_bool (inject_Z (max_count b)) 0) eqn:E; [|reflexivity].
  apply Qeq_bool_eq in E. now apply max_count_nonzero in E.
Qed.

Lemma lsb_nonzero (b : Z) (ref : Q) :
  2 <= b -> (0 < ref)%Q -> ~ (lsb b ref == 0)%Q.
Proof.
  intros Hb Hr E. pose proof (max_count_pos b Hb) as Hm.
  assert (P : (0 < lsb b ref)%Q).
  { unfold lsb, Qdiv. apply Qmult_lt_0_compat; [exact Hr|].
    apply Qinv_lt_0_compat. unfold Qlt. cbn. lia. }
  rewrite E in P. exact (Qlt_irrefl _ P).
Qed.

Lemma count_of_clip (b : Z) (c : Z) :
  1 <= b ->
  to_int (frint (clip (to_float (highest_count b))
                      (to_float (lowest_count b)) (inject_Z c)))
  = Qrint (inject_Z (saturate b c)).
Proof.
  intros Hb. rewrite highest_count_int, lowest_count_int by lia.
  cbn [to_float of_int to_int frint Q_arith].
  rewrite clip_inject_Z by lia. apply Qtrunc_inject_Z.
Qed.

Lemma perfect_comparator_is_quantize (trace : list Q) (b : Z) (ref : Q)
    (m : comparator_mode) (o : output_unit) :
  2 <= b ->
  perfect_comparator trace b ref (mode_name m) (output_name o)
  = Ok (quantize trace b ref m o).
Proof.
  intros Hb. unfold perfect_comparator.
  rewrite lsb_voltage_ok by exact Hb. cbn [rbind].
  assert (E : forall (raw : Q -> Z),
             round_to_int
               (apply_saturation
                  (map (fun x => inject_Z (raw x))
                       (map (fun x => (x / lsb b ref)%Q) trace)) b ref)
             = map (fun x => Qrint (inject_Z (saturate b (raw (x / lsb b ref)%Q))))
                   trace).
  { intros raw. unfold round_to_int.
    rewrite apply_saturation_clip, !map_map. apply map_ext. intros x.
    apply count_of_clip. lia. }
  destruct m; cbn [mode_name String.eqb Ascii.eqb Bool.eqb rbind];
    cbn [ffloor fceil fdiv fmul of_int Q_arith];
    [rewrite (E Qfloor) | rewrite (E Qceiling)];
    destruct o; cbn [output_name String.eqb Ascii.eqb Bool.eqb];
    unfold quantize, quantize_count, raw_count;
    rewrite ?map_map; reflexivity.
Qed.

Lemma quantize_count_range (b : Z) (ref : Q) (m : comparator_mode) (x : Q) :
  1 <= b -> min_count b <= quantize_count b ref m x <= max_count b.
Proof.
  intros Hb. unfold quantize_count. rewrite Qrint_inject_Z.
  now apply saturate_range.
Qed.

Lemma quantize_count_lattice (b : Z) (ref : Q) (m : comparator_mode) (k : Z) :
  2 <= b -> (0 < ref)%Q -> min_count b <= k <= max_count b ->
  quantize_count b ref m (lsb b ref * inject_Z k) = k.
Proof.
  intros Hb Hr Hk. unfold quantize_count. rewrite Qrint_inject_Z.
  assert (E : (lsb b ref * inject_Z k / lsb b ref == inject_Z k)%Q).
  { rewrite Qmult_comm. apply Qdiv_mult_l. now apply lsb_nonzero. }
  assert (R : raw_count m (lsb b ref) (lsb b ref * inject_Z k) = k).
  { destruct m; cbn [raw_count]; rewrite E;
      [apply Qfloor_Z | apply Qceiling_Z]. }
  rewrite R. now apply saturate_id.
Qed.






(** C6, as the code runs it: in binary64 arithmetic, with 4 bits and a
    reference voltage of 3.3, the sample 1.5 is quantized to 3 counts,
    and quantizing that voltage again gives 2 counts: the second trace
    differs from the first. *)
Lemma requantize_binary64_differs :
  exists v,
    perfect_comparator [B64.ratio 3 2] 4 (B64.ratio 33 10) "floor" "voltage"
    = Ok (FloatArray v)
    /\ perfect_comparator v 4 (B64.ratio 33 10) "floor" "voltage"
       <> Ok (FloatArray v).
Proof.
  eexists. split; [vm_compute; reflexivity|].
  vm_compute. discriminate.
Qed.

(** C6, amended: in exact arithmetic quantization is idempotent.  For
    every bit depth at least 2 and positive reference voltage, a voltage
    trace returned by [perfect_comparator] is returned unchanged when it is
    quantized again with the same bit depth and reference voltage. *)
Theorem requantize_exact (trace v : list Q) (b : Z) (ref : Q)
    (m m' : comparator_mode) :
  2 <= b -> (0 < ref)%Q ->
  perfect_comparator trace b ref (mode_name m) "voltage" = Ok (FloatArray v) ->
  perfect_comparator v b ref (mode_name m') "voltage" = Ok (FloatArray v).
Proof.
  intros Hb Hr Hv. change "voltage"%string with (output_name Voltage) in *.
  rewrite perfect_comparator_is_quantize in Hv by exact Hb.
  rewrite perfect_comparator_is_quantize by exact Hb.
  injection Hv as <-. f_equal. cbn [quantize]. f_equal.
  rewrite !map_map. apply map_ext. intros x. f_equal. f_equal.
  apply quantize_count_lattice; [exact Hb | exact Hr |].
  apply quantize_count_range. lia.
Qed.

Lemma requantize_exact_witness :
  perfect_comparator [132 # 70; 231 # 70; -264 # 70; 33 # 70]%Q 4 (33 # 10)
    (mode_name Floor) "voltage"
  = Ok (FloatArray [132 # 70; 231 # 70; -264 # 70; 33 # 70]%Q).
Proof.
  apply (requantize_exact [3 # 2; 10; - 20; 1 # 3]%Q _ 4 (33 # 10)
           Ceiling Floor); [lia | reflexivity | vm_compute; reflexivity].
Defined.

(** ** The comparator on the store *)

Section HeapFacts.
Context {F : Type} `{Arith F}.

Lemma load_floats_at (h : list (ndarray F)) (p : nat) (l : list F) :
  h !! p = Some (FloatArray l) -> load_floats p h = (Ok l, h).
Proof. intros E. unfold load_floats. now rewrite E. Qed.

Lemma load_ints_at (h : list (ndarray F)) (p : nat) (l : list Z) :
  h !! p = Some (IntArray l) -> load_ints p h = (Ok l, h).
Proof. intros E. unfold load_ints. now rewrite E. Qed.

Lemma ufunc_at (f : F -> F) (h : list (ndarray F)) (p : nat) (l : list F) :
  h !! p = Some (FloatArray l) ->
  ufunc f p h = (Ok (length h), h ++ [FloatArray (map f l)]).
Proof.
  intros E. unfold ufunc, sbind. now rewrite (load_floats_at h p l E).
Qed.

Lemma apply_saturation_st_at (h : list (ndarray F)) (a : nat) (xs : list F)
    (b : Z) (ref : F) :
  h !! a = Some (FloatArray xs) ->
  apply_saturation_st a b ref h
  = (Ok a, <[a := FloatArray (apply_saturation xs b ref)]> h).
Proof.
  intros E. pose proof (lookup_lt_Some _ _ _ E) as L.
  unfold apply_saturation_st, sbind, store_floats, sret.
  cbv zeta. rewrite (load_floats_at h a xs E). cbv beta iota.
  rewrite (load_floats_at h a xs E). cbv beta iota.
  rewrite (load_floats_at _ a _ (list_lookup_insert_eq h a _ L)).
  cbv beta iota.
  rewrite (load_floats_at _ a _ (list_lookup_insert_eq h a _ L)).
  cbv beta iota. rewrite list_insert_insert_eq. reflexivity.
Qed.

Lemma round_to_int_st_at (h : list (ndarray F)) (p : nat) (xs : list F) :
  h !! p = Some (FloatArray xs) ->
  round_to_int_st p h
  = (Ok (S (length h)),
     h ++ [FloatArray (map frint xs); IntArray (round_to_int xs)]).
Proof.
  intros E. unfold round_to_int_st, sbind.
  rewrite (ufunc_at frint h p xs E).
  assert (E' : (h ++ [FloatArray (map frint xs)]) !! length h
               = Some (FloatArray (map frint xs))).
  { rewrite lookup_app_r by lia. now rewrite Nat.sub_diag. }
  rewrite (load_floats_at _ _ _ E'). unfold alloc.
  rewrite length_app, <- app_assoc. cbn. do 2 f_equal. lia.
Qed.

Lemma lookup_fresh (h l : list (ndarray F)) (i : nat) :
  (h ++ l) !! (length h + i)%nat = l !! i.
Proof.
  rewrite lookup_app_r by lia. f_equal. lia.
Qed.

Lemma alloc_app (h l : list (ndarray F)) (a : ndarray F) :
  alloc a (h ++ l) = (Ok (length h + length l)%nat, h ++ (l ++ [a])).
Proof. unfold alloc. now rewrite length_app, app_assoc. Qed.

Lemma load_ints_app (h l : list (ndarray F)) (i : nat) (cs : list Z) :
  l !! i = Some (IntArray cs) ->
  load_ints (length h + i) (h ++ l) = (Ok cs, h ++ l).
Proof. intros E. apply load_ints_at. now rewrite lookup_fresh. Qed.

Lemma ufunc_first (f : F -> F) (h : list (ndarray F)) (t : nat)
    (xs : list F) :
  h !! t = Some (FloatArray xs) ->
  ufunc f t h = (Ok (length h + 0)%nat, h ++ [FloatArray (map f xs)]).
Proof. intros E. rewrite Nat.add_0_r. now apply ufunc_at. Qed.

Lemma ufunc_app (f : F -> F) (h l : list (ndarray F)) (i : nat)
    (xs : list F) :
  l !! i = Some (FloatArray xs) ->
  ufunc f (length h + i) (h ++ l)
  = (Ok (length h + length l)%nat, h ++ (l ++ [FloatArray (map f xs)])).
Proof.
  intros E. rewrite (ufunc_at f (h ++ l) _ xs) by now rewrite lookup_fresh.
  now rewrite length_app, app_assoc.
Qed.

Lemma apply_saturation_st_app (h l : list (ndarray F)) (i : nat)
    (xs : list F) (b : Z) (ref : F) :
  l !! i = Some (FloatArray xs) ->
  apply_saturation_st (length h + i) b ref (h ++ l)
  = (Ok (length h + i)%nat,
     h ++ <[i := FloatArray (apply_saturation xs b ref)]> l).
Proof.
  intros E.
  rewrite (apply_saturation_st_at (h ++ l) _ xs) by now rewrite lookup_fresh.
  now rewrite insert_app_r.
Qed.

Lemma round_to_int_st_app (h l : list (ndarray F)) (i : nat) (xs : list F) :
  l !! i = Some (FloatArray xs) ->
  round_to_int_st (length h + i) (h ++ l)
  = (Ok (length h + S (length l))%nat,
     h ++ (l ++ [FloatArray (map frint xs); IntArray (round_to_int xs)])).
Proof.
  intros E.
  rewrite (round_to_int_st_at (h ++ l) _ xs) by now rewrite lookup_fresh.
  rewrite length_app, app_assoc. do 2 f_equal. lia.
Qed.

Ltac run_step lem :=
  erewrite lem by reflexivity; cbv beta iota; cbn [length app].

(** The run on the store returns what [perfect_comparator] computes, in
    a buffer allocated by the call, and only extends the store it got. *)
Lemma perfect_comparator_st_at (h : list (ndarray F)) (t : nat)
    (tr : list F) (b : Z) (ref : F) (mode output : string) :
  h !! t = Some (FloatArray tr) ->
  exists h1,
    snd (perfect_comparator_st t b ref mode output h) = h ++ h1
    /\ match perfect_comparator tr b ref mode output with
       | Ok a =>
           exists i,
             fst (perfect_comparator_st t b ref mode output h)
             = Ok (length h + i)%nat
             /\ h1 !! i = Some a
       | Raise e =>
           fst (perfect_comparator_st t b ref mode output h) = Raise e
       end.
Proof.
  intros E. unfold perfect_comparator_st, perfect_comparator, sbind, lift.
  destruct (py_div ref (to_float (highest_count b))) as [lsb_v|e];
    cbn [rbind fst snd]; [|exists []; now rewrite app_nil_r].
  destruct (String.eqb mode "floor");
    [|destruct (String.eqb mode "ceiling")]; cbn [rbind].
  3: { exists []. now rewrite app_nil_r. }
  all: rewrite (ufunc_first _ h t tr E); cbv beta iota;
    run_step ufunc_app; cbn [insert list_insert];
    run_step apply_saturation_st_app; cbn [insert list_insert];
    run_step round_to_int_st_app;
    destruct (String.eqb output "voltage");
      [|destruct (String.eqb output "counts")].
  all: try (run_step load_ints_app; run_step alloc_app; run_step ufunc_app).
  all: cbn [fst snd sret]; eexists; (split; [reflexivity|]).
  all: try reflexivity.
  all: eexists; (split; reflexivity).
Qed.

End HeapFacts.

Lemma clip_clamp (b : Z) (x : Q) :
  1 <= b -> clip (inject_Z (max_count b)) (inject_Z (min_count b)) x = clamp b x.
Proof.
  intros Hb. pose proof (min_le_max_count b Hb) as Hm.
  unfold clip, clamp. cbn [fltb Q_arith].
  destruct (Qltb (inject_Z (max_count b)) x); [|reflexivity].
  rewrite Qltb_inject_Z.
  destruct (Z.ltb_spec (max_count b) (min_count b)); [lia | reflexivity].
Qed.

(** C9: [apply_saturation] writes through a view of its argument: it
    returns the location it was given, and the buffer there holds the
    clamped values afterwards.  The trace passed to [perfect_comparator]
    is nevertheless unchanged after the call, the floor or ceiling having
    been written to a new buffer before the saturation. *)
Theorem saturation_in_place_trace_kept (h : list (ndarray Q)) (a t : nat)
    (xs tr : list Q) (b : Z) (ref : Q) (mode output : string) :
  2 <= b ->
  h !! a = Some (FloatArray xs) ->
  h !! t = Some (FloatArray tr) ->
  apply_saturation_st a b ref h
  = (Ok a, <[a := FloatArray (map (clamp b) xs)]> h)
  /\ snd (perfect_comparator_st t b ref mode output h) !! t
     = Some (FloatArray tr).
Proof.
  intros Hb Ea Et. split.
  - rewrite (apply_saturation_st_at h a xs b ref Ea).
    rewrite apply_saturation_clip.
    rewrite highest_count_int, lowest_count_int by lia.
    cbn [to_float of_int Q_arith]. do 3 f_equal.
    apply map_ext. intros x. apply clip_clamp. lia.
  - destruct (perfect_comparator_st_at h t tr b ref mode output Et)
      as (h1 & -> & _).
    rewrite lookup_app_l; [exact Et | now apply lookup_lt_Some in Et].
Qed.

Lemma saturation_in_place_trace_kept_witness :
  apply_saturation_st 0 4 (33 # 10)%Q [FloatArray [3; 200; - 300; 1 # 3]%Q]
  = (Ok 0%nat,
     <[0%nat := FloatArray (map (clamp 4) [3; 200; - 300; 1 # 3]%Q)]>
       [FloatArray [3; 200; - 300; 1 # 3]%Q])
  /\ snd (perfect_comparator_st 0 4 (33 # 10)%Q "floor" "voltage"
            [FloatArray [3; 200; - 300; 1 # 3]%Q]) !! 0%nat
     = Some (FloatArray [3; 200; - 300; 1 # 3]%Q).
Proof.
  apply (saturation_in_place_trace_kept _ 0 0 _ _ 4 (33 # 10)%Q);
    [lia | reflexivity | reflexivity].
Defined.

(** ** Sequencing *)

Lemma rbind_Ok {A B} (r : result A) (k : A -> result B) (b : B) :
  rbind r k = Ok b -> exists a, r = Ok a /\ k a = Ok b.
Proof. destruct r as [a|e]; cbn; [eauto | discriminate]. Qed.


Lemma lift_Ok {S A} (r : result A) (s s' : S) (a : A) :
  lift r s = (Ok a, s') -> r = Ok a /\ s' = s.
Proof. unfold lift. intros E. now injection E as -> ->. Qed.

Lemma sbind_ext {S A B} (m : stateT S A) (k k' : A -> stateT S B) (s : S) :
  (forall a s1, k a s1 = k' a s1) -> sbind m k s = sbind m k' s.
Proof.
  intros E. unfold sbind. destruct (m s) as [[a|e] s1]; [apply E | reflexivity].
Qed.

Lemma stateless_lift {S A} (r : result A) : stateless (lift (S := S) r).
Proof. now exists r. Qed.

Lemma stateless_sret {S A} (a : A) : stateless (sret (S := S) a).
Proof. now exists (Ok a). Qed.

Lemma stateless_sbind {S A B} (m : stateT S A) (k : A -> stateT S B) :
  stateless m -> (forall a, stateless (k a)) -> stateless (sbind m k).
Proof.
  intros [r Hm] Hk. destruct r as [a|e].
  - destruct (Hk a) as [r' Hr']. exists r'. intros s.
    unfold sbind. now rewrite Hm, Hr'.
  - exists (Raise e). intros s. unfold sbind. now rewrite Hm.
Qed.

(** ** The digitiser *)



(** *** The sampling grid *)

Lemma arange_length (n : nat) : length (arange n) = n.
Proof. unfold arange. now rewrite length_map, length_seq. Qed.



(** *** Which steps can raise the sampling-rate error *)

Lemma free_Ok {A} (a : A) : rate_error_free (Ok a).
Proof. intros id. discriminate. Qed.

Lemma free_rbind {A B} (r : result A) (k : A -> result B) :
  rate_error_free r -> (forall a, rate_error_free (k a)) ->
  rate_error_free (rbind r k).
Proof.
  intros Hr Hk. destruct r as [a|e]; [apply Hk|].
  intros id E. cbn in E. apply (Hr id). injection E as ->. reflexivity.
Qed.

Lemma free_py_div (x y : Q) : rate_error_free (py_div x y).
Proof. unfold py_div. intros id. destruct (is_zero y); discriminate. Qed.

Lemma free_collab {A} (o : option A) : rate_error_free (collab o).
Proof. intros id. destruct o; discriminate. Qed.

Lemma free_first_item {A} (l : list A) : rate_error_free (first_item l).
Proof. intros id. destruct l; discriminate. Qed.

Lemma free_last_item {A} (l : list A) : rate_error_free (last_item l).
Proof. intros id. unfold last_item. destruct (last l); discriminate. Qed.

Lemma free_linspace (start stop : Q) (num : Z) :
  rate_error_free (linspace start stop num).
Proof. intros id. unfold linspace. destruct (num <? 0); discriminate. Qed.

Lemma free_Raise {A} (e : exn) :
  (forall id, e <> ValueError (AdcRateGreaterThanChannel id)) ->
  rate_error_free (Raise (A := A) e).
Proof. intros He id E. injection E as E. exact (He id E). Qed.

Create HintDb free.
#[local] Hint Resolve free_Ok free_py_div free_collab free_first_item
  free_last_item free_linspace : free.
#[local] Hint Extern 1 (rate_error_free (Raise _)) =>
  (apply free_Raise; intros ?; discriminate) : free.

Lemma free_new_n_samples (adc up : Q) (n : nat) :
  rate_error_free (new_n_samples adc up n).
Proof. unfold new_n_samples. apply free_rbind; auto with free. Qed.

Lemma free_resampled_times (adc : Q) (n : Z) (start : Q) :
  rate_error_free (resampled_times adc n start).
Proof.
  unfold resampled_times.
  repeat (apply free_rbind; [solve [auto with free]|intros ?]). auto with free.
Qed.

Lemma free_perfect_comparator (trace : list Q) (b : Z) (ref : Q)
    (mode output : string) :
  rate_error_free (perfect_comparator trace b ref mode output).
Proof.
  unfold perfect_comparator. apply free_rbind; [auto with free|intros ?].
  apply free_rbind.
  - destruct (String.eqb mode "floor"); [auto with free|].
    destruct (String.eqb mode "ceiling"); auto with free.
  - intros ?. destruct (String.eqb output "voltage"); [auto with free|].
    destruct (String.eqb output "counts"); auto with free.
Qed.

Lemma free_digitise (adc_type : string) (resampled : list Q)
    (bits : option (pynum Q)) (ref : Q) (output : string) :
  rate_error_free (digitise adc_type resampled bits ref output).
Proof.
  unfold digitise, adc_types.
  destruct (String.eqb adc_type "perfect_floor_comparator").
  - destruct bits as [[?|?]|]; auto with free.
    apply free_perfect_comparator.
  - destruct (String.eqb adc_type "perfect_ceiling_comparator");
      [|auto with free].
    destruct bits as [[?|?]|]; auto with free.
    apply free_perfect_comparator.
Qed.

#[local] Hint Resolve free_new_n_samples free_resampled_times : free.

Section DigitiserFacts.
Context {G : Type} `{Collaborators G}.



(** C8: with [random_clock_offset] off, [get_digital_trace] does not
    touch the random generator and its result does not depend on the
    generator's state: two calls with the same channel, detector
    description and options return the same trace and the same sampling
    frequency. *)
Theorem deterministic_without_clock_offset (station : Station)
    (det : Z -> Z -> gmap string (option (pynum Q))) (channel : Channel)
    (trigger_adc : bool) (adc_type : string)
    (diode : option (Channel -> option (list Q))) (rsf : bool)
    (output : string) (upsampling_factor nyquist_zone : option (pynum Q))
    (bandwidth_edge : Q) (g1 g2 : G) :
  fst (get_digital_trace station det channel trigger_adc false adc_type
         diode rsf output upsampling_factor nyquist_zone bandwidth_edge g1)
  = fst (get_digital_trace station det channel trigger_adc false adc_type
           diode rsf output upsampling_factor nyquist_zone bandwidth_edge g2)
  /\ snd (get_digital_trace station det channel trigger_adc false adc_type
            diode rsf output upsampling_factor nyquist_zone bandwidth_edge g1)
     = g1.
Proof.
  assert (P : stateless
                (get_digital_trace station det channel trigger_adc false
                   adc_type diode rsf output upsampling_factor nyquist_zone
                   bandwidth_edge)).
  { unfold get_digital_trace.
    repeat (apply stateless_sbind;
            [first [apply stateless_lift | apply stateless_sret]|intros ?]).
    apply stateless_lift. }
  destruct P as [r P]. now rewrite !P.
Qed.

Lemma fir_upsampling_below_two (factor : pynum Q) (trigger_adc : bool)
    (det_channel : gmap string (option (pynum Q))) (d : ndarray Q) (adc : Q) :
  (to_float factor < 2)%Q ->
  fir_upsampling (Some factor) trigger_adc det_channel d adc = Ok (d, adc).
Proof.
  intros L. unfold fir_upsampling.
  destruct (Qle_bool 2 (to_float factor)) eqn:E; [|reflexivity].
  apply Qle_bool_iff in E. exfalso. exact (Qlt_not_le _ _ L E).
Qed.

(** C10: an upsampling factor below 2 leaves the digitised trace and the
    sampling frequency as the quantizer step produced them: what is
    returned is the even-trimmed output of the comparator with the ADC
    sampling frequency, the same as without an upsampling factor. *)
Theorem upsampling_factor_below_two_ignored (station : Station)
    (det : Z -> Z -> gmap string (option (pynum Q))) (channel : Channel)
    (trigger_adc random_clock_offset : bool) (adc_type : string)
    (diode : option (Channel -> option (list Q))) (rsf : bool)
    (output : string) (factor : pynum Q) (nyquist_zone : option (pynum Q))
    (bandwidth_edge : Q) (g : G) :
  (to_float factor < 2)%Q ->
  (forall det_channel trace filtered p td,
      process_filtered_trace channel trigger_adc det_channel adc_type rsf
        output (Some factor) trace filtered p td
      = rbind (resample_to_adc channel (get_times channel) trace filtered
                 (get_sampling_rate channel) (adc_sampling_frequency p) td)
          (fun resampled =>
             rbind (digitise adc_type resampled (adc_n_bits p)
                      (adc_ref_voltage p) output)
               (fun digital =>
                  Ok (ensure_even digital,
                      if rsf then Some (adc_sampling_frequency p)
                      else None))))
  /\ get_digital_trace station det channel trigger_adc random_clock_offset
       adc_type diode rsf output (Some factor) nyquist_zone bandwidth_edge g
     = get_digital_trace station det channel trigger_adc random_clock_offset
         adc_type diode rsf output None nyquist_zone bandwidth_edge g.
Proof.
  intros L.
  assert (P : forall det_channel trace filtered p td,
             process_filtered_trace channel trigger_adc det_channel adc_type
               rsf output (Some factor) trace filtered p td
             = process_filtered_trace channel trigger_adc det_channel
                 adc_type rsf output None trace filtered p td).
  { intros. unfold process_filtered_trace.
    destruct (resample_to_adc _ _ _ _ _ _ _); [|reflexivity]. cbn [rbind].
    destruct (digitise _ _ _ _ _); [|reflexivity]. cbn [rbind].
    now rewrite fir_upsampling_below_two by exact L. }
  split.
  - intros. rewrite P. reflexivity.
  - unfold get_digital_trace.
    repeat (apply sbind_ext; intros ? ?). now rewrite P.
Qed.

Lemma read_then_fields_present (trigger_adc : bool)
    (det_channel : gmap string (option (pynum Q))) (channel : Channel)
    (p : AdcParameters) :
  read_adc_parameters trigger_adc det_channel = Ok p ->
  check_fields trigger_adc det_channel channel mandatory_fields = Ok tt.
Proof.
  unfold read_adc_parameters, getitem, mandatory_fields. cbn [check_fields].
  destruct (det_channel !! adc_label trigger_adc "adc_nbits");
    [|discriminate].
  destruct (det_channel !! adc_label trigger_adc "adc_reference_voltage");
    [|discriminate].
  destruct (det_channel !! adc_label trigger_adc "adc_sampling_frequency");
    [reflexivity|].
  cbn [rbind]. destruct (times_unit _ _); discriminate.
Qed.

Lemma add_clock_offset_ok (random_clock_offset : bool) (delay adc : Q)
    (g : G) :
  (0 < adc)%Q ->
  exists td g', add_clock_offset random_clock_offset delay adc g = (Ok td, g').
Proof.
  intros L. unfold add_clock_offset.
  destruct random_clock_offset; [|unfold sret; eauto].
  destruct (random_uniform g) as [u g']. unfold py_div.
  cbn [is_zero Q_arith].
  destruct (Qeq_bool adc 0) eqn:E; [|cbn [rbind]; eauto].
  apply Qeq_bool_eq in E. rewrite E in L. now apply Qlt_irrefl in L.
Qed.

(** Once the parameters are read, the input trace is there and the delay
    is computed, what remains is the rate check, the choice of the
    Nyquist zone and the processing of the filtered trace. *)
Lemma get_digital_trace_checks (station : Station)
    (det : Z -> Z -> gmap string (option (pynum Q))) (channel : Channel)
    (trigger_adc random_clock_offset : bool) (adc_type : string)
    (diode : option (Channel -> option (list Q))) (rsf : bool)
    (output : string) (upsampling_factor nyquist_zone : option (pynum Q))
    (bandwidth_edge : Q) (g g' : G) (p : AdcParameters) (trace : list Q)
    (td : Q) :
  read_adc_parameters trigger_adc
    (det (station_get_id station) (get_id channel)) = Ok p ->
  input_trace diode channel = Ok trace ->
  add_clock_offset random_clock_offset (adc_time_delay p)
    (adc_sampling_frequency p) g = (Ok td, g') ->
  get_digital_trace station det channel trigger_adc random_clock_offset
    adc_type diode rsf output upsampling_factor nyquist_zone bandwidth_edge g
  = (rbind (check_sampling_rate (adc_sampling_frequency p) channel)
       (fun _ =>
          rbind (choose_nyquist_zone nyquist_zone bandwidth_edge
                   (adc_sampling_frequency p) (get_sampling_rate channel)
                   trace)
            (fun filtered =>
               process_filtered_trace channel trigger_adc
                 (det (station_get_id station) (get_id channel)) adc_type
                 rsf output upsampling_factor trace filtered p td)),
     g').
Proof.
  intros Hp Ht Hd. unfold get_digital_trace, sbind, lift.
  rewrite (read_then_fields_present _ _ channel p Hp), Ht, Hp, Hd.
  destruct (check_sampling_rate _ _); [|reflexivity]. cbn [rbind].
  destruct (choose_nyquist_zone _ _ _ _ _); reflexivity.
Qed.

Lemma free_resample_to_adc (channel : Channel)
    (times trace filtered : list Q) (input adc td : Q) :
  rate_error_free (resample_to_adc channel times trace filtered input adc td).
Proof.
  unfold resample_to_adc. repeat (apply free_rbind; [solve [auto with free]|intros ?]).
  apply free_rbind.
  - destruct (Qltb _ _); auto with free.
    repeat (apply free_rbind; [solve [auto with free]|intros ?]). auto with free.
  - intros [? ?].
    repeat (apply free_rbind; [solve [auto with free]|intros ?]). auto with free.
Qed.

Lemma free_fir_upsampling (upsampling_factor : option (pynum Q))
    (trigger_adc : bool) (det_channel : gmap string (option (pynum Q)))
    (d : ndarray Q) (adc : Q) :
  rate_error_free
    (fir_upsampling upsampling_factor trigger_adc det_channel d adc).
Proof.
  unfold fir_upsampling. destruct upsampling_factor; [|auto with free].
  destruct (Qle_bool _ _); [|auto with free].
  apply free_rbind; [auto with free|intros ?]. auto with free.
Qed.

Lemma free_process_filtered_trace (channel : Channel) (trigger_adc : bool)
    (det_channel : gmap string (option (pynum Q))) (adc_type : string)
    (rsf : bool) (output : string) (upsampling_factor : option (pynum Q))
    (trace filtered : list Q) (p : AdcParameters) (td : Q) :
  rate_error_free
    (process_filtered_trace channel trigger_adc det_channel adc_type rsf
       output upsampling_factor trace filtered p td).
Proof.
  unfold process_filtered_trace.
  apply free_rbind; [apply free_resample_to_adc|intros ?].
  apply free_rbind; [apply free_digitise|intros ?].
  apply free_rbind; [apply free_fir_upsampling|intros [? ?]].
  auto with free.
Qed.

Lemma free_choose_nyquist_zone (nyquist_zone : option (pynum Q))
    (edge adc input : Q) (trace : list Q) :
  rate_error_free (choose_nyquist_zone nyquist_zone edge adc input trace).
Proof.
  unfold choose_nyquist_zone. destruct nyquist_zone; [|auto with free].
  destruct (Qltb _ _); [auto with free|].
  destruct (Qltb _ _); auto with free.
Qed.

(** C4: with the ADC parameters read from the detector description,
    [get_digital_trace] raises the sampling-rate error exactly when the
    ADC sampling frequency is strictly greater than the sampling rate of
    the channel; in particular an ADC sampling frequency equal to the
    channel's does not raise it. *)
Theorem rate_error_iff_adc_faster (station : Station)
    (det : Z -> Z -> gmap string (option (pynum Q))) (channel : Channel)
    (trigger_adc random_clock_offset : bool) (adc_type : string)
    (diode : option (Channel -> option (list Q))) (rsf : bool)
    (output : string) (upsampling_factor nyquist_zone : option (pynum Q))
    (bandwidth_edge : Q) (g : G) (p : AdcParameters) (trace : list Q) :
  read_adc_parameters trigger_adc
    (det (station_get_id station) (get_id channel)) = Ok p ->
  input_trace diode channel = Ok trace ->
  (0 < adc_sampling_frequency p)%Q ->
  (fst (get_digital_trace station det channel trigger_adc
          random_clock_offset adc_type diode rsf output upsampling_factor
          nyquist_zone bandwidth_edge g)
   = Raise (ValueError (AdcRateGreaterThanChannel (get_id channel)))
   <-> (get_sampling_rate channel < adc_sampling_frequency p)%Q)
  /\ ((adc_sampling_frequency p == get_sampling_rate channel)%Q ->
      fst (get_digital_trace station det channel trigger_adc
             random_clock_offset adc_type diode rsf output upsampling_factor
             nyquist_zone bandwidth_edge g)
      <> Raise (ValueError (AdcRateGreaterThanChannel (get_id channel)))).
Proof.
  intros Hp Ht Hpos.
  destruct (add_clock_offset_ok random_clock_offset (adc_time_delay p)
              (adc_sampling_frequency p) g Hpos) as (td & g' & Hd).
  rewrite (get_digital_trace_checks station det channel trigger_adc
             random_clock_offset adc_type diode rsf output upsampling_factor
             nyquist_zone bandwidth_edge g g' p trace td Hp Ht Hd).
  cbn [fst]. unfold check_sampling_rate.
  destruct (Qltb (get_sampling_rate channel) (adc_sampling_frequency p))
    eqn:E; cbn [rbind].
  - apply Qltb_lt in E. split; [tauto|].
    intros Q. rewrite Q in E. now apply Qlt_irrefl in E.
  - apply Qltb_ge in E.
    assert (N : rbind (choose_nyquist_zone nyquist_zone bandwidth_edge
                         (adc_sampling_frequency p)
                         (get_sampling_rate channel) trace)
                  (fun filtered =>
                     process_filtered_trace channel trigger_adc
                       (det (station_get_id station) (get_id channel))
                       adc_type rsf output upsampling_factor trace filtered
                       p td)
                <> Raise (ValueError
                            (AdcRateGreaterThanChannel (get_id channel)))).
    { apply free_rbind; [apply free_choose_nyquist_zone|].
      intros ?. apply free_process_filtered_trace. }
    split; [|intros _; exact N]. split; [intros R; now apply N in R|].
    intros L. exfalso. exact (Qlt_not_le _ _ L E).
Qed.

(** C7: when a Nyquist zone [n] is requested and the earlier checks have
    passed, [get_digital_trace] raises a [ValueError] if [n < 1], raises
    a [ValueError] if [n * adc_sampling_frequency / 2 - bandwidth_edge]
    exceeds half the sampling rate of the input, and otherwise goes on
    with the trace filtered to the passband
    [((n - 1) * adc_sampling_frequency / 2 + bandwidth_edge,
      n * adc_sampling_frequency / 2 - bandwidth_edge)]. *)
Theorem nyquist_zone_checked_then_filtered (station : Station)
    (det : Z -> Z -> gmap string (option (pynum Q))) (channel : Channel)
    (trigger_adc random_clock_offset : bool) (adc_type : string)
    (diode : option (Channel -> option (list Q))) (rsf : bool)
    (output : string) (upsampling_factor : option (pynum Q)) (n : Z)
    (bandwidth_edge : Q) (g g' : G) (p : AdcParameters) (trace : list Q)
    (td : Q) :
  let run :=
    get_digital_trace station det channel trigger_adc random_clock_offset
      adc_type diode rsf output upsampling_factor (Some (PyInt n))
      bandwidth_edge g in
  let adc := adc_sampling_frequency p in
  let upper := (inject_Z n * adc / 2 - bandwidth_edge)%Q in
  let lower := (inject_Z (n - 1) * adc / 2 + bandwidth_edge)%Q in
  read_adc_parameters trigger_adc
    (det (station_get_id station) (get_id channel)) = Ok p ->
  input_trace diode channel = Ok trace ->
  add_clock_offset random_clock_offset (adc_time_delay p) adc g
  = (Ok td, g') ->
  (adc <= get_sampling_rate channel)%Q ->
  (n < 1 -> fst run = Raise (ValueError NyquistZoneLessThanOne))
  /\ ((get_sampling_rate channel / 2 < upper)%Q ->
      fst run
      = Raise (ValueError (if n <? 1 then NyquistZoneLessThanOne
                           else LargerSamplingFrequency)))
  /\ (1 <= n -> (upper <= get_sampling_rate channel / 2)%Q ->
      run
      = (rbind (collab (butterworth_filter_trace trace
                          (get_sampling_rate channel) (lower, upper)))
           (fun filtered =>
              process_filtered_trace channel trigger_adc
                (det (station_get_id station) (get_id channel)) adc_type rsf
                output upsampling_factor trace filtered p td),
         g')).
Proof.
  intros run adc upper lower Hp Ht Hd Hrate. subst run.
  rewrite (get_digital_trace_checks station det channel trigger_adc
             random_clock_offset adc_type diode rsf output upsampling_factor
             (Some (PyInt n)) bandwidth_edge g g' p trace td Hp Ht Hd).
  cbn [fst]. unfold check_sampling_rate.
  apply Qltb_ge in Hrate. fold adc. rewrite Hrate. cbn [rbind].
  unfold choose_nyquist_zone. cbn [to_float of_int Q_arith].
  change 1%Q with (inject_Z 1). rewrite Qltb_inject_Z.
  cbn [snd]. fold adc. fold upper. fold lower.
  destruct (Z.ltb_spec n 1) as [L|L]; cbn [rbind].
  - split; [reflexivity|]. split; [reflexivity|]. intros; lia.
  - split; [intros; lia|]. split.
    + intros U. apply Qltb_lt in U. now rewrite U.
    + intros _ U. apply Qltb_ge in U. now rewrite U.
Qed.

End DigitiserFacts.

#[local] Existing Instance Sample.collaborators.


Lemma upsampling_factor_below_two_ignored_witness :
  get_digital_trace (H := Sample.collaborators) Sample.station
    Sample.det Sample.channel false true "perfect_floor_comparator" None
    true "voltage" (Some (PyInt 1)) None (1 # 50) 7
  = get_digital_trace (H := Sample.collaborators) Sample.station
      Sample.det Sample.channel false true "perfect_floor_comparator"
      None true "voltage" None None (1 # 50) 7.
Proof.
  apply (upsampling_factor_below_two_ignored (H := Sample.collaborators)
           Sample.station Sample.det
           Sample.channel false true "perfect_floor_comparator" None true
           "voltage" (PyInt 1) None (1 # 50) 7).
  reflexivity.
Defined.

Lemma rate_error_iff_adc_faster_witness :
  (fst (get_digital_trace (H := Sample.collaborators) Sample.station
          Sample.det_equal_rate Sample.channel false true
          "perfect_floor_comparator" None true "counts" None None (1 # 50) 7)
   = Raise (ValueError (AdcRateGreaterThanChannel 3))
   <-> (5 < 5)%Q)
  /\ ((5 == 5)%Q ->
      fst (get_digital_trace (H := Sample.collaborators) Sample.station
             Sample.det_equal_rate Sample.channel false true
             "perfect_floor_comparator" None true "counts" None None
             (1 # 50) 7)
      <> Raise (ValueError (AdcRateGreaterThanChannel 3))).
Proof.
  apply (rate_error_iff_adc_faster (H := Sample.collaborators)
           Sample.station Sample.det_equal_rate Sample.channel false
           true "perfect_floor_comparator" None true "counts" None None
           (1 # 50) 7
           {| adc_time_delay := 0; adc_n_bits := Some (PyInt 8);
              adc_ref_voltage := 1; adc_sampling_frequency := 5 |}
           Sample.samples);
    reflexivity.
Defined.

Lemma nyquist_zone_checked_then_filtered_witness :
  let run :=
    get_digital_trace (H := Sample.collaborators) Sample.station
      Sample.det Sample.channel false false "perfect_floor_comparator"
      None true "counts" None (Some (PyInt 1)) (1 # 50) 7 in
  let upper := (inject_Z 1 * 2 / 2 - (1 # 50))%Q in
  let lower := (inject_Z (1 - 1) * 2 / 2 + (1 # 50))%Q in
  (1 < 1 -> fst run = Raise (ValueError NyquistZoneLessThanOne))
  /\ ((5 / 2 < upper)%Q ->
      fst run
      = Raise (ValueError (if 1 <? 1 then NyquistZoneLessThanOne
                           else LargerSamplingFrequency)))
  /\ (1 <= 1 -> (upper <= 5 / 2)%Q ->
      run
      = (rbind (collab (butterworth_filter_trace (G := Z) Sample.samples 5
                          (lower, upper)))
           (fun filtered =>
              process_filtered_trace Sample.channel false
                Sample.det_channel "perfect_floor_comparator" true "counts"
                None Sample.samples filtered
                {| adc_time_delay := 0; adc_n_bits := Some (PyInt 8);
                   adc_ref_voltage := 1; adc_sampling_frequency := 2 |} 0),
         7)).
Proof.
  apply (nyquist_zone_checked_then_filtered (H := Sample.collaborators)
           Sample.station Sample.det Sample.channel false false
           "perfect_floor_comparator" None true "counts" None 1 (1 # 50) 7 7
           {| adc_time_delay := 0; adc_n_bits := Some (PyInt 8);
              adc_ref_voltage := 1; adc_sampling_frequency := 2 |}
           Sample.samples 0);
    [reflexivity | reflexivity | reflexivity | discriminate].
Defined.




(** * Further properties of the module *)

(** ** The comparator *)

Lemma apply_saturation_length {F : Type} `{Arith F} (xs : list F) (b : Z)
    (ref : F) :
  length (apply_saturation xs b ref) = length xs.
Proof. rewrite apply_saturation_clip. apply length_map. Qed.

(** X1: over any arithmetic, binary64 included, the array the comparator
    returns has as many samples as the trace it was given. *)
Theorem comparator_keeps_length {F : Type} `{Arith F} (trace : list F)
    (b : Z) (ref : F) (mode output : string) (a : ndarray F) :
  perfect_comparator trace b ref mode output = Ok a ->
  array_len a = length trace.
Proof.
  unfold perfect_comparator. intros E.
  apply rbind_Ok in E as (lsb_v & _ & E).
  apply rbind_Ok in E as (d & Hd & E).
  assert (L : length d = length trace).
  { destruct (String.eqb mode "floor");
      [|destruct (String.eqb mode "ceiling"); [|discriminate Hd]];
      injection Hd as <-; now rewrite !length_map. }
  destruct (String.eqb output "voltage");
    [|destruct (String.eqb output "counts"); [|discriminate E]];
    injection E as <-; cbn [array_len]; unfold round_to_int;
    rewrite !length_map, apply_saturation_length; exact L.
Qed.

Lemma comparator_keeps_length_witness :
  array_len (IntArray (F := spec_float) [3; 7; - 8]) = 3%nat.
Proof.
  apply (comparator_keeps_length
           [B64.ratio 3 2; B64.ratio 10 1; B64.ratio (- 20) 1] 4
           (B64.ratio 33 10) "floor" "counts").
  vm_compute. reflexivity.
Defined.





Lemma saturate_between (b c d : Z) :
  1 <= b -> c <= d <= c + 1 ->
  saturate b c <= saturate b d <= saturate b c + 1.
Proof.
  intros Hb Hcd. pose proof (min_le_max_count b Hb). unfold saturate.
  destruct (Z.ltb_spec (max_count b) c), (Z.ltb_spec (max_count b) d),
    (Z.ltb_spec c (min_count b)), (Z.ltb_spec d (min_count b)); lia.
Qed.







Lemma inject_Z_le (a b : Z) : (inject_Z a <= inject_Z b)%Q -> a <= b.
Proof. intros L. rewrite Zle_Qle. exact L. Qed.







(** X6: for one sample the ceiling comparator returns the count of the
    floor comparator or the next one. *)
Theorem ceiling_count_at_most_one_above_floor (b : Z) (ref x : Q)
    (cf cc : Z) :
  2 <= b -> (0 < ref)%Q ->
  perfect_comparator [x] b ref "floor" "counts" = Ok (IntArray [cf]) ->
  perfect_comparator [x] b ref "ceiling" "counts" = Ok (IntArray [cc]) ->
  cf <= cc <= cf + 1.
Proof.
  intros Hb Hr Hf Hc.
  change "floor"%string with (mode_name Floor) in Hf.
  change "ceiling"%string with (mode_name Ceiling) in Hc.
  change "counts"%string with (output_name Counts) in *.
  rewrite perfect_comparator_is_quantize in Hf, Hc by exact Hb.
  injection Hf as <-. injection Hc as <-.
  unfold quantize_count. rewrite !Qrint_inject_Z. cbn [raw_count].
  apply saturate_between; [lia|].
  set (q := (x / lsb b ref)%Q).
  split; [apply inject_Z_le, Qle_floor_ceiling|].
  assert (L : (inject_Z (Qceiling q - 1) < inject_Z (Qfloor q + 1))%Q)
    by exact (Qlt_trans _ _ _ (Qceiling_lt q) (Qlt_floor q)).
  rewrite <- Zlt_Qlt in L. lia.
Qed.

Lemma ceiling_count_at_most_one_above_floor_witness : 3 <= 4 <= 3 + 1.
Proof.
  apply (ceiling_count_at_most_one_above_floor 4 (33 # 10)%Q (3 # 2)%Q);
    [lia | reflexivity | reflexivity | reflexivity].
Defined.

(** ** The comparator on the store *)

(** X7: run on a store, the comparator returns what the comparator on
    array values computes, in a buffer that did not exist before the
    call, and every buffer that existed keeps its contents; when it
    raises, the store is only extended as well. *)
Theorem comparator_on_store_refines {F : Type} `{Arith F}
    (h : list (ndarray F)) (t : nat) (tr : list F) (b : Z) (ref : F)
    (mode output : string) :
  h !! t = Some (FloatArray tr) ->
  exists h1,
    (forall p x, h !! p = Some x -> (h ++ h1) !! p = Some x)
    /\ match perfect_comparator tr b ref mode output with
       | Ok a =>
           exists r,
             perfect_comparator_st t b ref mode output h = (Ok r, h ++ h1)
             /\ (h ++ h1) !! r = Some a
             /\ h !! r = None
       | Raise e =>
           perfect_comparator_st t b ref mode output h = (Raise e, h ++ h1)
       end.
Proof.
  intros E.
  destruct (perfect_comparator_st_at h t tr b ref mode output E)
    as (h1 & Hs & Hr).
  exists h1. split.
  - intros p x Hp. now apply lookup_app_l_Some.
  - destruct (perfect_comparator tr b ref mode output) as [a|e].
    + destruct Hr as (i & Hf & Hi). exists (length h + i)%nat.
      split; [|split].
      * rewrite <- Hs, <- Hf. now destruct (perfect_comparator_st _ _ _ _ _ _).
      * now rewrite lookup_fresh.
      * apply lookup_ge_None. lia.
    + rewrite <- Hs, <- Hr. now destruct (perfect_comparator_st _ _ _ _ _ _).
Qed.

Lemma comparator_on_store_refines_witness :
  exists h1,
    (forall p x,
        [FloatArray [B64.ratio 3 2]] !! p = Some x ->
        ([FloatArray [B64.ratio 3 2]] ++ h1) !! p = Some x)
    /\ match perfect_comparator [B64.ratio 3 2] 4 (B64.ratio 33 10) "floor"
               "counts" with
       | Ok a =>
           exists r,
             perfect_comparator_st 0 4 (B64.ratio 33 10) "floor" "counts"
               [FloatArray [B64.ratio 3 2]]
             = (Ok r, [FloatArray [B64.ratio 3 2]] ++ h1)
             /\ ([FloatArray [B64.ratio 3 2]] ++ h1) !! r = Some a
             /\ [FloatArray [B64.ratio 3 2]] !! r = None
       | Raise e =>
           perfect_comparator_st 0 4 (B64.ratio 33 10) "floor" "counts"
             [FloatArray [B64.ratio 3 2]]
           = (Raise e, [FloatArray [B64.ratio 3 2]] ++ h1)
       end.
Proof.
  apply (comparator_on_store_refines [FloatArray [B64.ratio 3 2]] 0
           [B64.ratio 3 2] 4 (B64.ratio 33 10) "floor" "counts").
  reflexivity.
Defined.

Lemma clamp_clamp (b : Z) (x : Q) : 1 <= b -> clamp b (clamp b x) = clamp b x.
Proof.
  intros Hb. pose proof (min_le_max_count b Hb) as Hm. unfold clamp.
  destruct (Qltb (inject_Z (max_count b)) x) eqn:E1.
  - rewrite !Qltb_inject_Z, Z.ltb_irrefl.
    destruct (Z.ltb_spec (max_count b) (min_count b)); [lia | reflexivity].
  - destruct (Qltb x (inject_Z (min_count b))) eqn:E2.
    + rewrite !Qltb_inject_Z, Z.ltb_irrefl.
      destruct (Z.ltb_spec (max_count b) (min_count b)); [lia | reflexivity].
    + now rewrite E1, E2.
Qed.

(** X8: saturating in place a second time changes nothing: after one
    call of [apply_saturation] on a buffer, another call returns the same
    location and leaves the store as it is. *)
Theorem saturation_in_place_idempotent (h : list (ndarray Q)) (a : nat)
    (xs : list Q) (b : Z) (ref : Q) :
  1 <= b -> h !! a = Some (FloatArray xs) ->
  apply_saturation_st a b ref (snd (apply_saturation_st a b ref h))
  = (Ok a, snd (apply_saturation_st a b ref h)).
Proof.
  intros Hb Ea. pose proof (lookup_lt_Some _ _ _ Ea) as L.
  rewrite (apply_saturation_st_at h a xs b ref Ea). cbn [snd].
  rewrite (apply_saturation_st_at _ a _ b ref (list_lookup_insert_eq h a _ L)).
  rewrite list_insert_insert_eq. do 3 f_equal.
  rewrite !apply_saturation_clip, map_map.
  rewrite highest_count_int, lowest_count_int by lia.
  cbn [to_float of_int Q_arith]. apply map_ext. intros x.
  rewrite !clip_clamp by lia. now apply clamp_clamp.
Qed.

Lemma saturation_in_place_idempotent_witness :
  apply_saturation_st 0 4 (33 # 10)%Q
    (snd (apply_saturation_st 0 4 (33 # 10)%Q
            [FloatArray [3; 200; - 300; 1 # 3]%Q]))
  = (Ok 0%nat,
     snd (apply_saturation_st 0 4 (33 # 10)%Q
            [FloatArray [3; 200; - 300; 1 # 3]%Q])).
Proof.
  apply (saturation_in_place_idempotent _ 0 [3; 200; - 300; 1 # 3]%Q 4);
    [lia | reflexivity].
Defined.

(** ** The exceptions of [get_digital_trace] *)

Lemma may_raise_Ok {A} (P : exn -> Prop) (a : A) : may_raise P (Ok a).
Proof. intros e E. discriminate E. Qed.

Lemma may_raise_Raise {A} (P : exn -> Prop) (e : exn) :
  P e -> may_raise (A := A) P (Raise e).
Proof. intros Pe e' E. now injection E as <-. Qed.

Lemma may_raise_rbind {A B} (P : exn -> Prop) (r : result A)
    (k : A -> result B) :
  may_raise P r -> (forall a, r = Ok a -> may_raise P (k a)) ->
  may_raise P (rbind r k).
Proof.
  intros Hr Hk. destruct r as [a|e]; [now apply Hk|].
  intros e' E. cbn in E. injection E as <-. now apply Hr.
Qed.

Lemma may_raise_py_div (P : exn -> Prop) (x y : Q) :
  P ZeroDivisionError -> may_raise P (py_div x y).
Proof.
  intros Pz. unfold py_div.
  destruct (is_zero y); [now apply may_raise_Raise | apply may_raise_Ok].
Qed.

Lemma may_raise_collab {A} (P : exn -> Prop) (o : option A) :
  P CollaboratorError -> may_raise P (collab o).
Proof.
  intros Pc. destruct o; [apply may_raise_Ok | now apply may_raise_Raise].
Qed.

Lemma may_raise_first_item {A} (P : exn -> Prop) (l : list A) :
  P IndexError -> may_raise P (first_item l).
Proof.
  intros Pi. destruct l; [now apply may_raise_Raise | apply may_raise_Ok].
Qed.

Lemma may_raise_last_item {A} (P : exn -> Prop) (l : list A) :
  P IndexError -> may_raise P (last_item l).
Proof.
  intros Pi. unfold last_item.
  destruct (last l); [apply may_raise_Ok | now apply may_raise_Raise].
Qed.

Lemma may_raise_linspace (P : exn -> Prop) (start stop : Q) (num : Z) :
  P (ValueError NegativeNumberOfSamples) ->
  may_raise P (linspace start stop num).
Proof.
  intros Pn. unfold linspace.
  destruct (num <? 0); [now apply may_raise_Raise | apply may_raise_Ok].
Qed.

Lemma sbind_Raise {S A B} (m : stateT S A) (k : A -> stateT S B) (s s' : S)
    (e : exn) :
  sbind m k s = (Raise e, s') ->
  m s = (Raise e, s')
  \/ exists a s1, m s = (Ok a, s1) /\ k a s1 = (Raise e, s').
Proof.
  unfold sbind. destruct (m s) as [[a|e'] s1]; [eauto|].
  intros E. injection E as -> ->. now left.
Qed.

Lemma lift_Raise {S A} (r : result A) (s s' : S) (e : exn) :
  lift r s = (Raise e, s') -> r = Raise e /\ s' = s.
Proof. unfold lift. intros E. now injection E as -> ->. Qed.

(** The field check fails on the first mandatory field that is absent. *)
Lemma check_fields_Raise (trigger_adc : bool)
    (d : gmap string (option (pynum Q))) (channel : Channel)
    (fields : list string) (e : exn) :
  check_fields trigger_adc d channel fields = Raise e ->
  exists pre field post,
    fields = pre ++ field :: post
    /\ (forall f, In f pre -> d !! adc_label trigger_adc f <> None)
    /\ d !! adc_label trigger_adc field = None
    /\ e = ValueError (FieldNotPresent (adc_label trigger_adc field)
                         (get_id channel)).
Proof.
  induction fields as [|f fields IH]; cbn [check_fields]; [discriminate|].
  destruct (d !! adc_label trigger_adc f) eqn:Ef.
  - intros E. destruct (IH E) as (pre & field & post & -> & Hp & Hn & He).
    exists (f :: pre), field, post. repeat split; try assumption.
    intros f' [<-|Hin]; [congruence | now apply Hp].
  - intros E. injection E as <-. exists [], f, fields.
    repeat split; try assumption. intros f' [].
Qed.

Lemma check_fields_Ok (trigger_adc : bool)
    (d : gmap string (option (pynum Q))) (channel : Channel)
    (fields : list string) :
  check_fields trigger_adc d channel fields = Ok tt ->
  forall field, In field fields ->
                exists v, d !! adc_label trigger_adc field = Some v.
Proof.
  induction fields as [|f fields IH]; cbn [check_fields In]; [tauto|].
  destruct (d !! adc_label trigger_adc f) eqn:Ef; [|discriminate].
  intros E field [<-|Hin]; [eauto | now apply IH].
Qed.

Section PipelineErrors.
Context {G : Type} `{Collaborators G}.

(** After the field check the parameters are read without [KeyError]. *)
Lemma read_after_check (trigger_adc : bool)
    (d : gmap string (option (pynum Q))) (channel : Channel) :
  check_fields trigger_adc d channel mandatory_fields = Ok tt ->
  may_raise (fun e => e = TypeError) (read_adc_parameters trigger_adc d).
Proof.
  intros C. pose proof (check_fields_Ok _ _ _ _ C) as P.
  destruct (P "adc_nbits"%string) as [v1 E1]; [cbn; auto|].
  destruct (P "adc_reference_voltage"%string) as [v2 E2]; [cbn; auto|].
  destruct (P "adc_sampling_frequency"%string) as [v3 E3]; [cbn; auto|].
  unfold read_adc_parameters, getitem. rewrite E1, E2, E3. cbn [rbind].
  unfold times_unit. intros e.
  destruct v2; cbn [rbind]; [|intros E; now injection E as <-].
  destruct v3; cbn [rbind]; [discriminate|intros E; now injection E as <-].
Qed.

Lemma resample_to_adc_errors (P : exn -> Prop) (channel : Channel)
    (times trace filtered : list Q) (input adc td : Q) :
  P ZeroDivisionError -> P CollaboratorError -> P IndexError ->
  P (ValueError NegativeNumberOfSamples) ->
  may_raise P (resample_to_adc channel times trace filtered input adc td).
Proof.
  intros Pz Pc Pi Pn. unfold resample_to_adc, new_n_samples, resampled_times.
  repeat first
    [ apply may_raise_Ok
    | apply may_raise_py_div; assumption
    | apply may_raise_collab; assumption
    | apply may_raise_first_item; assumption
    | apply may_raise_last_item; assumption
    | apply may_raise_linspace; assumption
    | apply may_raise_rbind; [|intros ? _]
    | match goal with
      | |- may_raise _ (if ?c then _ else _) => destruct c
      | |- may_raise _ (let (_, _) := ?p in _) => destruct p
      | |- may_raise _ (match ?p with (_, _) => _ end) => destruct p
      end ].
Qed.

Lemma comparator_errors (P : exn -> Prop) (trace : list Q) (b : Z)
    (ref : Q) (mode output : string) :
  (mode = "floor" \/ mode = "ceiling")%string ->
  P ZeroDivisionError -> P (ValueError OutputFormatUnknown) ->
  may_raise P (perfect_comparator trace b ref mode output).
Proof.
  intros Hm Pz Po. unfold perfect_comparator.
  apply may_raise_rbind; [now apply may_raise_py_div|intros lsb_v _].
  apply may_raise_rbind.
  - destruct Hm as [-> | ->]; apply may_raise_Ok.
  - intros d _. destruct (String.eqb output "voltage"); [apply may_raise_Ok|].
    destruct (String.eqb output "counts");
      [apply may_raise_Ok | now apply may_raise_Raise].
Qed.

Lemma digitise_errors (channel : Channel) (trigger_adc : bool)
    (det_channel : gmap string (option (pynum Q))) (adc_type : string) (resampled : list Q) (bits : option (pynum Q))
    (ref : Q) (output : string) :
  may_raise (pipeline_error channel trigger_adc det_channel adc_type)
    (digitise adc_type resampled bits ref output).
Proof.
  unfold digitise. destruct (adc_types adc_type) as [c|] eqn:Et.
  - assert (Hc : (c = perfect_floor_comparator
                  \/ c = perfect_ceiling_comparator)).
    { unfold adc_types in Et.
      destruct (String.eqb adc_type "perfect_floor_comparator");
        [injection Et as <-; now left|].
      destruct (String.eqb adc_type "perfect_ceiling_comparator");
        [injection Et as <-; now right | discriminate Et]. }
    destruct bits as [[bits|?]|]; try (apply may_raise_Raise; exact I).
    destruct Hc as [-> | ->];
      unfold perfect_floor_comparator, perfect_ceiling_comparator;
      apply comparator_errors; (exact I || auto).
  - apply may_raise_Raise. cbn. auto.
Qed.

Lemma process_filtered_trace_errors (channel : Channel) (trigger_adc : bool)
    (det_channel : gmap string (option (pynum Q))) (adc_type : string)
    (rsf : bool) (output : string) (upsampling_factor : option (pynum Q))
    (trace filtered : list Q) (p : AdcParameters) (td : Q) :
  may_raise (pipeline_error channel trigger_adc det_channel adc_type)
    (process_filtered_trace channel trigger_adc det_channel adc_type rsf
       output upsampling_factor trace filtered p td).
Proof.
  unfold process_filtered_trace.
  apply may_raise_rbind; [apply resample_to_adc_errors; exact I|intros ? _].
  apply may_raise_rbind; [apply digitise_errors|intros ? _].
  apply may_raise_rbind.
  - unfold fir_upsampling. destruct upsampling_factor; [|apply may_raise_Ok].
    destruct (Qle_bool _ _); [|apply may_raise_Ok].
    apply may_raise_rbind; [now apply may_raise_collab|intros ? _].
    apply may_raise_Ok.
  - intros [? ?] _. apply may_raise_Ok.
Qed.

Lemma choose_nyquist_zone_errors (channel : Channel) (trigger_adc : bool)
    (det_channel : gmap string (option (pynum Q))) (adc_type : string) (nyquist_zone : option (pynum Q))
    (edge adc input : Q) (trace : list Q) :
  may_raise (pipeline_error channel trigger_adc det_channel adc_type)
    (choose_nyquist_zone nyquist_zone edge adc input trace).
Proof.
  unfold choose_nyquist_zone. destruct nyquist_zone; [|apply may_raise_Ok].
  destruct (Qltb _ _); [now apply may_raise_Raise|].
  destruct (Qltb _ _); [now apply may_raise_Raise|].
  now apply may_raise_collab.
Qed.

(** Every exception of [get_digital_trace] is a [pipeline_error]. *)
Lemma get_digital_trace_errors (station : Station)
    (det : Z -> Z -> gmap string (option (pynum Q))) (channel : Channel)
    (trigger_adc random_clock_offset : bool) (adc_type : string)
    (diode : option (Channel -> option (list Q))) (rsf : bool)
    (output : string) (upsampling_factor nyquist_zone : option (pynum Q))
    (bandwidth_edge : Q) (g g' : G) (e : exn) :
  get_digital_trace station det channel trigger_adc random_clock_offset
    adc_type diode rsf output upsampling_factor nyquist_zone bandwidth_edge g
  = (Raise e, g') ->
  pipeline_error channel trigger_adc
    (det (station_get_id station) (get_id channel)) adc_type e.
Proof.
  unfold get_digital_trace. intros E.
  apply sbind_Raise in E as [E | ([] & s1 & C & E)].
  { apply lift_Raise in E as [E _].
    apply check_fields_Raise in E as (pre & field & post & Hf & _ & Hn & ->).
    unfold pipeline_error. split; [reflexivity|]. split; [|exact Hn].
    apply in_map. rewrite Hf. apply in_or_app. right. now left. }
  apply lift_Ok in C as [C _].
  apply sbind_Raise in E as [E | (trace & s2 & _ & E)].
  { apply lift_Raise in E as [E _]. unfold input_trace in E.
    destruct diode as [d|]; [|discriminate E].
    destruct (d channel); [discriminate E|]. now injection E as <-. }
  apply sbind_Raise in E as [E | (p & s3 & _ & E)].
  { apply lift_Raise in E as [E _].
    rewrite (read_after_check _ _ _ C e E). exact I. }
  apply sbind_Raise in E as [E | (td & s4 & _ & E)].
  { unfold add_clock_offset in E.
    destruct random_clock_offset; [|discriminate E].
    destruct (random_uniform s3) as [u g1]. injection E as E _.
    unfold py_div in E. destruct (is_zero _); cbn [rbind] in E;
      [injection E as <-; exact I | discriminate E]. }
  apply sbind_Raise in E as [E | ([] & s5 & _ & E)].
  { apply lift_Raise in E as [E _]. unfold check_sampling_rate in E.
    destruct (Qltb _ _); [|discriminate E]. injection E as <-. reflexivity. }
  apply sbind_Raise in E as [E | (filtered & s6 & _ & E)].
  { apply lift_Raise in E as [E _].
    exact (choose_nyquist_zone_errors _ _ _ _ _ _ _ _ _ e E). }
  apply lift_Raise in E as [E _].
  exact (process_filtered_trace_errors _ _ _ _ _ _ _ _ _ _ _ e E).
Qed.

Lemma adc_types_None (adc_type : string) :
  adc_types adc_type = None ->
  adc_type <> "perfect_floor_comparator"%string
  /\ adc_type <> "perfect_ceiling_comparator"%string.
Proof.
  unfold adc_types. intros E. split; intros ->;
    cbn [String.eqb Ascii.eqb Bool.eqb] in E; discriminate E.
Qed.

(** X9: [get_digital_trace] never raises the comparator's error about
    the mode, whatever its arguments: the mode is fixed by the ADC type,
    and an unknown ADC type is reported otherwise. *)
Theorem mode_error_never_raised (station : Station)
    (det : Z -> Z -> gmap string (option (pynum Q))) (channel : Channel)
    (trigger_adc random_clock_offset : bool) (adc_type : string)
    (diode : option (Channel -> option (list Q))) (rsf : bool)
    (output : string) (upsampling_factor nyquist_zone : option (pynum Q))
    (bandwidth_edge : Q) (g : G) :
  fst (get_digital_trace station det channel trigger_adc random_clock_offset
         adc_type diode rsf output upsampling_factor nyquist_zone
         bandwidth_edge g)
  <> Raise (ValueError ChooseFloorOrCeiling).
Proof.
  intros E.
  destruct (get_digital_trace _ _ _ _ _ _ _ _ _ _ _ _ g) as [r g'] eqn:R.
  cbn [fst] in E. subst r.
  exact (get_digital_trace_errors _ _ _ _ _ _ _ _ _ _ _ _ _ _ _ R).
Qed.

(** X10: a [KeyError] of [get_digital_trace] names the ADC type, which
    then is neither of the two comparators: after the check of the
    mandatory fields no read of the detector description fails. *)
Theorem key_error_means_unknown_adc_type (station : Station)
    (det : Z -> Z -> gmap string (option (pynum Q))) (channel : Channel)
    (trigger_adc random_clock_offset : bool) (adc_type : string)
    (diode : option (Channel -> option (list Q))) (rsf : bool)
    (output : string) (upsampling_factor nyquist_zone : option (pynum Q))
    (bandwidth_edge : Q) (g : G) (key : string) :
  fst (get_digital_trace station det channel trigger_adc random_clock_offset
         adc_type diode rsf output upsampling_factor nyquist_zone
         bandwidth_edge g)
  = Raise (KeyError key) ->
  key = adc_type
  /\ adc_type <> "perfect_floor_comparator"%string
  /\ adc_type <> "perfect_ceiling_comparator"%string.
Proof.
  intros E.
  destruct (get_digital_trace _ _ _ _ _ _ _ _ _ _ _ _ g) as [r g'] eqn:R.
  cbn [fst] in E. subst r.
  destruct (get_digital_trace_errors _ _ _ _ _ _ _ _ _ _ _ _ _ _ _ R)
    as [-> N].
  split; [reflexivity | now apply adc_types_None].
Qed.

(** X11: when a mandatory field (with the prefix of the trigger ADC when
    that one is asked for) is absent from the detector description,
    [get_digital_trace] raises the error that names the first absent
    field, in the order bit count, reference voltage, sampling frequency,
    and the channel, before anything else: no random number is drawn. *)
Theorem missing_field_reported (station : Station)
    (det : Z -> Z -> gmap string (option (pynum Q))) (channel : Channel)
    (trigger_adc random_clock_offset : bool) (adc_type : string)
    (diode : option (Channel -> option (list Q))) (rsf : bool)
    (output : string) (upsampling_factor nyquist_zone : option (pynum Q))
    (bandwidth_edge : Q) (g : G) (field : string) :
  In field mandatory_fields ->
  det (station_get_id station) (get_id channel)
    !! adc_label trigger_adc field = None ->
  exists pre first post,
    mandatory_fields = pre ++ first :: post
    /\ (forall f, In f pre ->
                  det (station_get_id station) (get_id channel)
                    !! adc_label trigger_adc f <> None)
    /\ det (station_get_id station) (get_id channel)
         !! adc_label trigger_adc first = None
    /\ get_digital_trace station det channel trigger_adc
         random_clock_offset adc_type diode rsf output upsampling_factor
         nyquist_zone bandwidth_edge g
       = (Raise (ValueError (FieldNotPresent (adc_label trigger_adc first)
                               (get_id channel))), g).
Proof.
  intros Hin Hn.
  destruct (check_fields trigger_adc
              (det (station_get_id station) (get_id channel)) channel
              mandatory_fields) as [[]|e] eqn:C.
  - destruct (check_fields_Ok _ _ _ _ C field Hin) as [v Hv]. congruence.
  - destruct (check_fields_Raise _ _ _ _ _ C)
      as (pre & first & post & Hf & Hp & Hfn & ->).
    exists pre, first, post. repeat split; try assumption.
    unfold get_digital_trace, sbind, lift. now rewrite C.
Qed.

(** X12: conversely, the error about a missing field is raised only for
    a mandatory field that is absent from the description of this
    channel. *)
Theorem field_error_means_missing (station : Station)
    (det : Z -> Z -> gmap string (option (pynum Q))) (channel : Channel)
    (trigger_adc random_clock_offset : bool) (adc_type : string)
    (diode : option (Channel -> option (list Q))) (rsf : bool)
    (output : string) (upsampling_factor nyquist_zone : option (pynum Q))
    (bandwidth_edge : Q) (g : G) (f : string) (id : Z) :
  fst (get_digital_trace station det channel trigger_adc random_clock_offset
         adc_type diode rsf output upsampling_factor nyquist_zone
         bandwidth_edge g)
  = Raise (ValueError (FieldNotPresent f id)) ->
  id = get_id channel
  /\ In f (map (adc_label trigger_adc) mandatory_fields)
  /\ det (station_get_id station) (get_id channel) !! f = None.
Proof.
  intros E.
  destruct (get_digital_trace _ _ _ _ _ _ _ _ _ _ _ _ g) as [r g'] eqn:R.
  cbn [fst] in E. subst r.
  exact (get_digital_trace_errors _ _ _ _ _ _ _ _ _ _ _ _ _ _ _ R).
Qed.

End PipelineErrors.

Lemma key_error_means_unknown_adc_type_witness :
  "flash"%string = "flash"%string
  /\ "flash"%string <> "perfect_floor_comparator"%string
  /\ "flash"%string <> "perfect_ceiling_comparator"%string.
Proof.
  apply (key_error_means_unknown_adc_type (H := Sample.collaborators)
           Sample.station Sample.det Sample.channel false false "flash" None
           true "counts" None None (1 # 50) 1 "flash").
  vm_compute. reflexivity.
Defined.

Lemma missing_field_reported_witness :
  exists pre first post,
    mandatory_fields = pre ++ first :: post
    /\ (forall f, In f pre ->
                  delete "adc_reference_voltage"%string Sample.det_channel
                    !! adc_label true f <> None)
    /\ delete "adc_reference_voltage"%string Sample.det_channel
         !! adc_label true first = None
    /\ get_digital_trace (H := Sample.collaborators) Sample.station
         (fun _ _ => delete "adc_reference_voltage"%string Sample.det_channel)
         Sample.channel true true "perfect_floor_comparator" None true
         "counts" None None (1 # 50) 1
       = (Raise (ValueError (FieldNotPresent (adc_label true first) 3)), 1).
Proof.
  apply (missing_field_reported (H := Sample.collaborators) Sample.station
           (fun _ _ => delete "adc_reference_voltage"%string
                         Sample.det_channel)
           Sample.channel true true "perfect_floor_comparator" None true
           "counts" None None (1 # 50) 1 "adc_sampling_frequency");
    [cbn; auto | vm_compute; reflexivity].
Defined.

Lemma field_error_means_missing_witness :
  3 = get_id Sample.channel
  /\ In "adc_nbits"%string (map (adc_label false) mandatory_fields)
  /\ delete "adc_nbits"%string Sample.det_channel !! "adc_nbits"%string
     = None.
Proof.
  apply (field_error_means_missing (H := Sample.collaborators) Sample.station
           (fun _ _ => delete "adc_nbits"%string Sample.det_channel)
           Sample.channel false false "perfect_floor_comparator" None true
           "counts" None None (1 # 50) 1 "adc_nbits" 3).
  vm_compute. reflexivity.
Defined.

(** ** What a call of [get_digital_trace] guarantees *)

Lemma stateless_snd {S A} (m : stateT S A) (s : S) :
  stateless m -> snd (m s) = s.
Proof. intros [r P]. now rewrite P. Qed.

Section PipelineFacts.
Context {G : Type} `{Collaborators G}.



(** X14: with the clock offset on, a call that gets past the reading of
    the parameters draws exactly one random number, whatever happens
    afterwards, a later exception included. *)
Theorem clock_offset_draws_once (station : Station)
    (det : Z -> Z -> gmap string (option (pynum Q))) (channel : Channel)
    (trigger_adc : bool) (adc_type : string)
    (diode : option (Channel -> option (list Q))) (rsf : bool)
    (output : string) (upsampling_factor nyquist_zone : option (pynum Q))
    (bandwidth_edge : Q) (g : G) (p : AdcParameters) (trace : list Q) :
  read_adc_parameters trigger_adc
    (det (station_get_id station) (get_id channel)) = Ok p ->
  input_trace diode channel = Ok trace ->
  snd (get_digital_trace station det channel trigger_adc true adc_type diode
         rsf output upsampling_factor nyquist_zone bandwidth_edge g)
  = snd (random_uniform g).
Proof.
  intros Hp Ht. unfold get_digital_trace.
  unfold sbind at 1. unfold lift at 1.
  rewrite (read_then_fields_present _ _ channel p Hp).
  unfold sbind at 1. unfold lift at 1. rewrite Ht.
  unfold sbind at 1. unfold lift at 1. rewrite Hp.
  unfold sbind at 1. unfold add_clock_offset.
  destruct (random_uniform g) as [u g1]. cbn [snd].
  destruct (py_div u (adc_sampling_frequency p)) as [shift|e];
    cbn [rbind]; [|reflexivity].
  apply stateless_snd.
  repeat (apply stateless_sbind; [apply stateless_lift|intros ?]).
  apply stateless_lift.
Qed.

End PipelineFacts.


Lemma clock_offset_draws_once_witness :
  snd (get_digital_trace (H := Sample.collaborators) Sample.station
         Sample.det SampleRun.slow_channel false true
         "perfect_floor_comparator" None true "counts" None None (1 # 50) 1)
  = snd (Sample.lcg_uniform 1).
Proof.
  apply (clock_offset_draws_once (H := Sample.collaborators) Sample.station
           Sample.det SampleRun.slow_channel false
           "perfect_floor_comparator" None true "counts" None None (1 # 50) 1
           {| adc_time_delay := 0; adc_n_bits := Some (PyInt 8);
              adc_ref_voltage := 1; adc_sampling_frequency := 2 |}
           Sample.samples);
    reflexivity.
Defined.

(** ** What [get_digital_trace] reads *)

Lemma check_fields_agree (trigger_adc : bool)
    (d1 d2 : gmap string (option (pynum Q))) (channel : Channel)
    (fields : list string) :
  (forall field, In field fields ->
                 d1 !! adc_label trigger_adc field
                 = d2 !! adc_label trigger_adc field) ->
  check_fields trigger_adc d1 channel fields
  = check_fields trigger_adc d2 channel fields.
Proof.
  induction fields as [|f fields IH]; intros A; cbn [check_fields];
    [reflexivity|].
  rewrite <- (A f) by now left.
  destruct (d1 !! adc_label trigger_adc f); [|reflexivity].
  apply IH. intros field Hin. apply A. now right.
Qed.

Section ReadFacts.
Context {G : Type} `{Collaborators G}.

(** X15: of the detector description, [get_digital_trace] reads the five
    ADC fields only, under the names the flag [trigger_adc] selects: two
    descriptions that agree on them give the same result.  So the fields
    of the trigger ADC do not affect the other ADC, and conversely. *)
Theorem only_selected_adc_fields_read (station : Station)
    (det1 det2 : Z -> Z -> gmap string (option (pynum Q)))
    (channel : Channel) (trigger_adc random_clock_offset : bool)
    (adc_type : string) (diode : option (Channel -> option (list Q)))
    (rsf : bool) (output : string)
    (upsampling_factor nyquist_zone : option (pynum Q)) (bandwidth_edge : Q)
    (g : G) :
  (forall field, In field adc_fields ->
     det1 (station_get_id station) (get_id channel)
       !! adc_label trigger_adc field
     = det2 (station_get_id station) (get_id channel)
         !! adc_label trigger_adc field) ->
  get_digital_trace station det1 channel trigger_adc random_clock_offset
    adc_type diode rsf output upsampling_factor nyquist_zone bandwidth_edge g
  = get_digital_trace station det2 channel trigger_adc random_clock_offset
      adc_type diode rsf output upsampling_factor nyquist_zone
      bandwidth_edge g.
Proof.
  intros A. unfold get_digital_trace.
  set (d1 := det1 (station_get_id station) (get_id channel)) in *.
  set (d2 := det2 (station_get_id station) (get_id channel)) in *.
  assert (C : check_fields trigger_adc d1 channel mandatory_fields
              = check_fields trigger_adc d2 channel mandatory_fields).
  { apply check_fields_agree. intros field Hin. apply A.
    unfold mandatory_fields, adc_fields in *. cbn [In] in *. tauto. }
  assert (R : read_adc_parameters trigger_adc d1
              = read_adc_parameters trigger_adc d2).
  { unfold read_adc_parameters, getitem.
    rewrite !(A "adc_time_delay"%string), !(A "adc_nbits"%string),
      !(A "adc_reference_voltage"%string),
      !(A "adc_sampling_frequency"%string);
      unfold adc_fields; cbn [In]; tauto. }
  assert (P : forall trace filtered p td,
             process_filtered_trace channel trigger_adc d1 adc_type rsf
               output upsampling_factor trace filtered p td
             = process_filtered_trace channel trigger_adc d2 adc_type rsf
                 output upsampling_factor trace filtered p td).
  { intros. unfold process_filtered_trace, fir_upsampling.
    rewrite (A "adc_ntaps"%string) by (unfold adc_fields; cbn [In]; tauto).
    reflexivity. }
  rewrite C, R. repeat (apply sbind_ext; intros ? ?). now rewrite P.
Qed.

(** X16: a diode replaces the trace of the channel and nothing else: the
    call with a diode gives what the call without one gives on the
    channel whose trace is the diode's output. *)
Theorem diode_output_replaces_trace (station : Station)
    (det : Z -> Z -> gmap string (option (pynum Q))) (channel : Channel)
    (trigger_adc random_clock_offset : bool) (adc_type : string)
    (d : Channel -> option (list Q)) (rsf : bool) (output : string)
    (upsampling_factor nyquist_zone : option (pynum Q)) (bandwidth_edge : Q)
    (g : G) (trace : list Q) :
  d channel = Some trace ->
  get_digital_trace station det channel trigger_adc random_clock_offset
    adc_type (Some d) rsf output upsampling_factor nyquist_zone
    bandwidth_edge g
  = get_digital_trace station det (with_trace channel trace) trigger_adc
      random_clock_offset adc_type None rsf output upsampling_factor
      nyquist_zone bandwidth_edge g.
Proof.
  intros Hd. unfold get_digital_trace, input_trace. rewrite Hd.
  reflexivity.
Qed.

End ReadFacts.

Lemma only_selected_adc_fields_read_witness :
  get_digital_trace (H := Sample.collaborators) Sample.station Sample.det
    Sample.channel false true "perfect_floor_comparator" None true "counts"
    None None (1 # 50) 1
  = get_digital_trace (H := Sample.collaborators) Sample.station
      (fun _ _ => <["trigger_adc_nbits" := Some (PyInt 2)]> Sample.det_channel)
      Sample.channel false true "perfect_floor_comparator" None true
      "counts" None None (1 # 50) 1.
Proof.
  apply (only_selected_adc_fields_read (H := Sample.collaborators)).
  intros field Hin. unfold adc_fields in Hin. cbn [In] in Hin.
  destruct Hin as [<-|[<-|[<-|[<-|[<-|[]]]]]]; vm_compute; reflexivity.
Defined.

Lemma diode_output_replaces_trace_witness :
  get_digital_trace (H := Sample.collaborators) Sample.station Sample.det
    Sample.channel false false "perfect_floor_comparator"
    (Some (fun c => Some (map (fun x => x * x)%Q (get_trace c)))) true
    "counts" None None (1 # 50) 1
  = get_digital_trace (H := Sample.collaborators) Sample.station Sample.det
      (with_trace Sample.channel
         (map (fun x => x * x)%Q (get_trace Sample.channel)))
      false false "perfect_floor_comparator" None true "counts" None None
      (1 # 50) 1.
Proof.
  apply (diode_output_replaces_trace (H := Sample.collaborators)).
  reflexivity.
Defined.

(** ** The instants of the downsampling *)

Lemma arange_lookup (n i : nat) :
  (i < n)%nat -> arange n !! i = Some (inject_Z (Z.of_nat i)).
Proof.
  intros L. unfold arange.
  change (map ?f ?l) with (f <$> l).
  rewrite list_lookup_fmap, lookup_seq_lt by exact L. reflexivity.
Qed.

Lemma Qeq_bool_positive (q : Q) : (0 < q)%Q -> Qeq_bool q 0 = false.
Proof.
  intros L. destruct (Qeq_bool q 0) eqn:E; [|reflexivity].
  apply Qeq_bool_eq in E. rewrite E in L. now apply Qlt_irrefl in L.
Qed.

(** X17: for at least two instants and a positive ADC sampling frequency,
    the instants at which the interpolant is evaluated run from the start
    time of the trace to [n / adc_sampling_frequency] after it, both
    ends included: the instant of index [i] is
    [start + i * (n / adc_sampling_frequency) / (n - 1)]. *)
Theorem resampled_times_span (adc : Q) (n : Z) (start : Q) :
  (0 < adc)%Q -> 2 <= n ->
  exists ts,
    resampled_times adc n start = Ok ts
    /\ length ts = Z.to_nat n
    /\ (forall i t,
           ts !! i = Some t ->
           (t == start
                 + inject_Z (Z.of_nat i) * (inject_Z n / adc)
                   / inject_Z (n - 1))%Q).
Proof.
  intros Ha Hn. unfold resampled_times, py_div. cbn [is_zero fdiv Q_arith].
  rewrite (Qeq_bool_positive adc Ha). cbn [rbind]. unfold linspace.
  destruct (Z.ltb_spec n 0) as [?|_]; [lia|].
  destruct (Z.ltb_spec 0 (n - 1)) as [_|?]; [|lia].
  destruct (Z.ltb_spec 1 n) as [_|?]; [|lia].
  set (stop := (inject_Z n / adc)%Q).
  assert (Hd : ~ (inject_Z (n - 1) == 0)%Q).
  { unfold Qeq. cbn. lia. }
  assert (Hs : (0 < (stop - 0) / inject_Z (n - 1))%Q).
  { unfold stop, Qdiv. apply Qmult_lt_0_compat.
    - unfold Qminus. rewrite Qplus_0_r. apply Qmult_lt_0_compat;
        [unfold Qlt; cbn; lia | now apply Qinv_lt_0_compat].
    - apply Qinv_lt_0_compat. unfold Qlt. cbn. lia. }
  rewrite (Qeq_bool_positive _ Hs). cbn [rbind]. eexists. split; [reflexivity|]. split.
  - now rewrite length_map, length_insert, !length_map, arange_length.
  - intros i t. repeat change (map ?f ?l) with (f <$> l).
    rewrite list_lookup_fmap.
    set (y := (fun v => (v + 0)%Q) <$> _).
    assert (Ly : length y = Z.to_nat n)
      by (unfold y; now rewrite !length_fmap, arange_length).
    rewrite Ly.
    destruct (Nat.eq_dec i (pred (Z.to_nat n))) as [->|Ni].
    + rewrite list_lookup_insert_eq by lia. cbn [fmap option_fmap option_map].
      intros E. injection E as <-.
      replace (Z.of_nat (pred (Z.to_nat n))) with (n - 1) by lia.
      field. exact Hd.
    + rewrite list_lookup_insert_ne by congruence. unfold y.
      rewrite !list_lookup_fmap.
      destruct (lt_dec i (Z.to_nat n)) as [Li|Li].
      * rewrite arange_lookup by exact Li.
        cbn [fmap option_fmap option_map]. intros E. injection E as <-.
        field. exact Hd.
      * rewrite lookup_ge_None_2 by (rewrite arange_length; lia).
        discriminate.
Qed.

Lemma resampled_times_span_witness :
  exists ts,
    resampled_times 2 50 (1 # 3) = Ok ts
    /\ length ts = Z.to_nat 50
    /\ (forall i t,
           ts !! i = Some t ->
           (t == (1 # 3)
                 + inject_Z (Z.of_nat i) * (inject_Z 50 / 2)
                   / inject_Z (50 - 1))%Q).
Proof.
  apply (resampled_times_span 2 50 (1 # 3)); [reflexivity | lia].
Defined.

(** ** The module's [run] *)

Section RunFacts.
Context {G : Type} `{Collaborators G}.
Variable set_trace : Channel -> ndarray Q -> Q -> Channel.
Variable units_MHz : Q.


Lemma get_digital_trace_stateless (station : Station)
    (det : Z -> Z -> gmap string (option (pynum Q))) (channel : Channel)
    (trigger_adc : bool) (adc_type : string)
    (diode : option (Channel -> option (list Q))) (rsf : bool)
    (output : string) (upsampling_factor nyquist_zone : option (pynum Q))
    (bandwidth_edge : Q) :
  stateless (get_digital_trace station det channel trigger_adc false
               adc_type diode rsf output upsampling_factor nyquist_zone
               bandwidth_edge).
Proof.
  unfold get_digital_trace.
  repeat (apply stateless_sbind;
          [first [apply stateless_lift | apply stateless_sret]|intros ?]).
  apply stateless_lift.
Qed.

Lemma get_digital_trace_small_factor (station : Station)
    (det : Z -> Z -> gmap string (option (pynum Q))) (channel : Channel)
    (trigger_adc random_clock_offset : bool) (adc_type : string)
    (diode : option (Channel -> option (list Q))) (rsf : bool)
    (output : string) (factor : pynum Q) (nyquist_zone : option (pynum Q))
    (bandwidth_edge : Q) (g : G) :
  (to_float factor < 2)%Q ->
  get_digital_trace station det channel trigger_adc random_clock_offset
    adc_type diode rsf output (Some factor) nyquist_zone bandwidth_edge g
  = get_digital_trace station det channel trigger_adc random_clock_offset
      adc_type diode rsf output None nyquist_zone bandwidth_edge g.
Proof.
  intros L. unfold get_digital_trace.
  repeat (apply sbind_ext; intros ? ?). unfold process_filtered_trace.
  destruct (resample_to_adc _ _ _ _ _ _ _); [|reflexivity]. cbn [rbind].
  destruct (digitise _ _ _ _ _); [|reflexivity]. cbn [rbind].
  now rewrite fir_upsampling_below_two by exact L.
Qed.


(** X19: when [run] returns, the station has as many channels as before,
    and each holds the trace and the sampling frequency that
    [get_digital_trace] returned for it, asked with the primary ADC, no
    diode and no Nyquist zone. *)
Theorem run_sets_every_channel (station : Station)
    (det : Z -> Z -> gmap string (option (pynum Q)))
    (random_clock_offset : bool) (adc_type output : string)
    (upsampling_factor : option (pynum Q)) (channels final : list Channel)
    (g g' : G) :
  run set_trace units_MHz station det random_clock_offset adc_type output
    upsampling_factor channels g = (Ok tt, (final, g')) ->
  Forall2
    (fun c c' =>
       exists g1 g2 d f,
         get_digital_trace station det c false random_clock_offset adc_type
           None true output upsampling_factor None (20 * units_MHz)%Q g1
         = (Ok (d, Some f), g2)
         /\ c' = set_trace c d f)
    channels final.
Proof.
  revert final g. induction channels as [|c rest IH]; intros final g;
    cbn [run].
  - intros E. injection E as <- _. constructor.
  - destruct (get_digital_trace station det c false random_clock_offset
                adc_type None true output upsampling_factor None
                (20 * units_MHz)%Q g) as [[[d [f|]]|e0] g1] eqn:R;
      [|discriminate|discriminate].
    destruct (run set_trace units_MHz station det random_clock_offset
                adc_type output upsampling_factor rest g1)
      as [r [rest' g2]] eqn:Rr.
    intros E. injection E as -> <- ->.
    constructor; [|now apply (IH _ _ Rr)].
    exists g, g1, d, f. now split.
Qed.

(** X20: without the clock offset, [run] leaves the random generator as
    it found it, and the outcome for a channel does not depend on the
    other channels: when [run] returns, each channel holds what the
    digitisation of that channel alone gives. *)
Theorem run_without_clock_offset_is_channelwise (station : Station)
    (det : Z -> Z -> gmap string (option (pynum Q)))
    (adc_type output : string) (upsampling_factor : option (pynum Q))
    (channels final : list Channel) (g g' : G) (r : result unit) :
  run set_trace units_MHz station det false adc_type output
    upsampling_factor channels g = (r, (final, g')) ->
  g' = g
  /\ (r = Ok tt ->
     forall i c,
       channels !! i = Some c ->
       exists d f,
         get_digital_trace station det c false false adc_type None true
           output upsampling_factor None (20 * units_MHz)%Q g
         = (Ok (d, Some f), g)
         /\ final !! i = Some (set_trace c d f)).
Proof.
  revert final g' r. induction channels as [|c rest IH]; intros final g' r;
    cbn [run].
  - intros E. injection E as <- <- <-. split; [reflexivity|].
    intros _ i c Hc. discriminate Hc.
  - destruct (get_digital_trace_stateless station det c false adc_type None
                true output upsampling_factor None (20 * units_MHz)%Q)
      as [rc Pc].
    rewrite Pc. destruct rc as [[d [f|]]|e0].
    + destruct (run set_trace units_MHz station det false adc_type output
                  upsampling_factor rest g) as [r1 [rest' g1]] eqn:Rr
        in |- *.
      intros E. injection E as -> <- ->.
      destruct (IH _ _ _ Rr) as [-> Hi]. split; [reflexivity|].
      intros Hr [|i] c' Hc.
      * injection Hc as <-. exists d, f. now rewrite Pc.
      * cbn in Hc. destruct (Hi Hr i c' Hc) as (d' & f' & Hg & Hl).
        exists d', f'. split; [exact Hg | exact Hl].
    + intros E. injection E as <- <- <-. split; [reflexivity|discriminate].
    + intros E. injection E as <- <- <-. split; [reflexivity|discriminate].
Qed.

(** X21: an upsampling factor below 2, the default factor 1 of [run]
    included, makes [run] do what it does without upsampling. *)
Theorem run_small_factor_is_no_upsampling (station : Station)
    (det : Z -> Z -> gmap string (option (pynum Q)))
    (random_clock_offset : bool) (adc_type output : string)
    (factor : pynum Q) (channels : list Channel) (g : G) :
  (to_float factor < 2)%Q ->
  run set_trace units_MHz station det random_clock_offset adc_type output
    (Some factor) channels g
  = run set_trace units_MHz station det random_clock_offset adc_type output
      None channels g.
Proof.
  intros L. revert g. induction channels as [|c rest IH]; intros g;
    cbn [run]; [reflexivity|].
  rewrite (get_digital_trace_small_factor _ _ _ _ _ _ _ _ _ _ _ _ _ L).
  destruct (get_digital_trace _ _ _ _ _ _ _ _ _ _ _ _ g)
    as [[[d [f|]]|e0] g1]; try reflexivity.
  now rewrite IH.
Qed.

End RunFacts.


Lemma run_sets_every_channel_witness :
  Forall2
    (fun c c' =>
       exists g1 g2 d f,
         get_digital_trace (H := Sample.collaborators) Sample.station
           Sample.det c false true "perfect_floor_comparator" None true
           "counts" (Some (PyInt 1)) None (20 * (1 # 1000))%Q g1
         = (Ok (d, Some f), g2)
         /\ c' = SampleRun.set_trace c d f)
    [Sample.channel; Sample.channel]
    [SampleRun.set_trace Sample.channel (IntArray [0; 0; 88; - 101]) 2;
     SampleRun.set_trace Sample.channel (IntArray [0; 22; 43; - 93]) 2].
Proof.
  apply (run_sets_every_channel (H := Sample.collaborators)
           SampleRun.set_trace (1 # 1000) Sample.station Sample.det true
           "perfect_floor_comparator" "counts" (Some (PyInt 1))
           [Sample.channel; Sample.channel] _ 1 377401575).
  vm_compute. reflexivity.
Defined.

Lemma run_without_clock_offset_is_channelwise_witness :
  5 = 5
  /\ (Ok tt = Ok tt ->
     forall i c,
       [Sample.channel; Sample.channel] !! i = Some c ->
       exists d f,
         get_digital_trace (H := Sample.collaborators) Sample.station
           Sample.det c false false "perfect_floor_comparator" None true
           "counts" (Some (PyInt 1)) None (20 * (1 # 1000))%Q 5
         = (Ok (d, Some f), 5)
         /\ [SampleRun.set_trace Sample.channel
               (IntArray [0; 39; 15; - 72]) 2;
             SampleRun.set_trace Sample.channel
               (IntArray [0; 39; 15; - 72]) 2] !! i
            = Some (SampleRun.set_trace c d f)).
Proof.
  apply (run_without_clock_offset_is_channelwise (H := Sample.collaborators)
           SampleRun.set_trace (1 # 1000) Sample.station Sample.det
           "perfect_floor_comparator" "counts" (Some (PyInt 1))
           [Sample.channel; Sample.channel]).
  vm_compute. reflexivity.
Defined.

Lemma run_small_factor_is_no_upsampling_witness :
  run (H := Sample.collaborators) SampleRun.set_trace (1 # 1000)
    Sample.station Sample.det true "perfect_floor_comparator" "voltage"
    (Some (PyInt 1)) [Sample.channel; SampleRun.slow_channel] 1
  = run (H := Sample.collaborators) SampleRun.set_trace (1 # 1000)
      Sample.station Sample.det true "perfect_floor_comparator" "voltage"
      None [Sample.channel; SampleRun.slow_channel] 1.
Proof.
  apply (run_small_factor_is_no_upsampling (H := Sample.collaborators)).
  reflexivity.
Defined.

(** ** The counts that [get_digital_trace] returns *)



Section CountFacts.
Context {G : Type} `{Collaborators G}.


End CountFacts.

